(** * defencsrev: the submission intake and moderation server

    A shallow embedding of [src/server.js] (an Express application backed by a
    Supabase table, the local file system and a mail transport) and the
    properties of its four JSON routes.

    The handlers are written in a small state-and-exception monad over a
    [World] that holds the [submissions] table, the files under the upload
    directory and a chronological log of every call made to a collaborator.
    What the collaborators answer on a given request (the clock, whether a
    write, the database or the mail transport fails, the identifier and the
    timestamp the table assigns) is read from an [Oracle].  Console output is
    not modelled. *)

From Stdlib Require Import ZArith List String Ascii Bool Lia.
From Stdlib Require Import Permutation Sorted Relations DecimalString.
From Stdlib Require DecimalPos DecimalZ.
Import ListNotations.
Open Scope string_scope.

(* ================================================================== *)
(** ** JavaScript strings and values *)

Definition nl : string := String "010"%char EmptyString.
Definition dq : string := String "034"%char EmptyString.

(** [String.prototype.endsWith(searchString)] with the default end position:
    [start = len - searchLength]; a negative [start] answers [false],
    otherwise the substring of [s] from [start] is compared with
    [searchString]. *)
Definition endsWith (s searchString : string) : bool :=
  let len := String.length s in
  let searchLength := String.length searchString in
  if (len <? searchLength)%nat then false
  else String.eqb (substring (len - searchLength) searchLength s) searchString.

(** A form field or query parameter: [None] is [undefined], [Some s] a string.
    Only the empty string and [undefined] are falsy. *)
Definition truthy (v : option string) : bool :=
  match v with
  | Some s => negb (String.eqb s EmptyString)
  | None => false
  end.

(** The string a validated field holds. *)
Definition str (v : option string) : string :=
  match v with
  | Some s => s
  | None => EmptyString
  end.

(** [v || d] where [d] is a string. *)
Definition or_default (v : option string) (d : string) : string :=
  if truthy v then str v else d.

(** [v || null]. *)
Definition or_null (v : option string) : option string :=
  if truthy v then v else None.

(** [`${n}`] for an integer-valued number. *)
Definition number_to_string (n : Z) : string :=
  NilZero.string_of_int (Z.to_int n).

(* ================================================================== *)
(** ** Data model *)

(** The columns the intake handler writes. *)
Record Columns := {
  full_name : string;
  email : string;
  project_title : string;
  project_description : string;
  video_link : option string;
  presentation_url : string;
  paper_url : option string;
  logo_url : option string;
  status : string
}.

(** A stored row: the columns plus what the table assigns. *)
Record Row := {
  id : string;
  created_at : Z;
  cols : Columns
}.

Definition row_status (r : Row) : string := status (cols r).

Definition set_status (s : string) (c : Columns) : Columns :=
  {| full_name := full_name c;
     email := email c;
     project_title := project_title c;
     project_description := project_description c;
     video_link := video_link c;
     presentation_url := presentation_url c;
     paper_url := paper_url c;
     logo_url := logo_url c;
     status := s |}.

Definition set_row_status (s : string) (r : Row) : Row :=
  {| id := id r; created_at := created_at r; cols := set_status s (cols r) |}.

(** The projection [select("id, full_name, project_title, created_at")]. *)
Record CalendarEntry := {
  cal_id : string;
  cal_full_name : string;
  cal_project_title : string;
  cal_created_at : Z
}.

(** An uploaded part as multer's memory storage hands it over. *)
Record File := {
  originalname : string;
  buffer : string
}.

Record MailOptions := {
  mail_from : string;
  mail_to : string;
  mail_subject : string;
  mail_html : string
}.

(** The multipart form of [POST /api/submissions]: [req.body] fields and the
    [req.files] object built by [upload.fields] (each part at most once). *)
Record SubmitReq := {
  fullName : option string;
  reqEmail : option string;
  projectTitle : option string;
  projectDescription : option string;
  videoLink : option string;
  presentationFile : option File;
  paperFile : option File;
  logoFile : option File
}.

Inductive Request :=
| PostSubmissions (req : SubmitReq)
| GetSubmissions (statusParam : option string)
| GetCalendar
| PostApprove (studentId : option string).

Inductive Body :=
| Message (success : bool) (message : string)
| Rows (data : list Row)
| Calendar (data : list CalendarEntry).

Record Response := {
  code : Z;
  body : Body
}.

Definition json (c : Z) (ok : bool) (msg : string) : Response :=
  {| code := c; body := Message ok msg |}.

(* ================================================================== *)
(** ** The world and the collaborators' answers *)

Inductive Event :=
| EvMkdir (dir : string)
| EvWriteFile (path : string) (data : string)
| EvInsert (c : Columns)
| EvSelect (statusValue : string)
| EvSelectCalendar
| EvUpdateStatus (rowId : string) (newStatus : string)
| EvSendMail (m : MailOptions).

Record World := {
  w_rows : list Row;
  w_files : list (string * string);
  w_upload_dir : bool;
  w_log : list Event
}.

(** How a database call ends: a result without error, a result carrying
    [error], or a rejected promise. *)
Inductive DbOutcome := DbOk | DbError | DbThrows.

Record Oracle := {
  o_now_presentation : Z;
  o_now_paper : Z;
  o_now_logo : Z;
  o_mkdir_ok : bool;
  o_write_presentation_ok : bool;
  o_write_paper_ok : bool;
  o_write_logo_ok : bool;
  o_db : DbOutcome;
  o_new_id : string;
  o_created_at : Z;
  o_mail_ok : bool
}.

(** Node's [path] functions, [__dirname] and the environment variables the
    handlers read. *)
Record Host := {
  path_join : string -> string -> string;
  path_basename : string -> string;
  dirname : string;
  env_NEXT_PUBLIC_APP_URL : option string;
  env_EMAIL_USER : option string
}.

(* ================================================================== *)
(** ** State and exceptions *)

Inductive outcome (A : Type) :=
| Returned (a : A)
| Thrown.

Arguments Returned {A} a.
Arguments Thrown {A}.

Definition M (A : Type) : Type := World -> outcome A * World.

Definition ret {A} (a : A) : M A := fun w => (Returned a, w).

Definition throw {A} : M A := fun w => (Thrown, w).

Definition bind {A B} (m : M A) (k : A -> M B) : M B :=
  fun w =>
    match m w with
    | (Returned a, w') => k a w'
    | (Thrown, w') => (Thrown, w')
    end.

(** [try { body } catch (error) { handler }]: the effects of [body] up to the
    throw stay. *)
Definition try_catch {A} (body handler : M A) : M A :=
  fun w =>
    match body w with
    | (Returned a, w') => (Returned a, w')
    | (Thrown, w') => handler w'
    end.

Declare Scope js_scope.
Delimit Scope js_scope with js.
Notation "x <- m ;; k" := (bind m (fun x => k))
  (at level 61, m at next level, right associativity) : js_scope.
Notation "m ;; k" := (bind m (fun _ => k))
  (at level 61, right associativity) : js_scope.

Definition log (e : Event) : M unit :=
  fun w =>
    (Returned tt,
     {| w_rows := w_rows w; w_files := w_files w;
        w_upload_dir := w_upload_dir w; w_log := w_log w ++ [e] |}).

Definition get_rows : M (list Row) := fun w => (Returned (w_rows w), w).

Definition put_rows (rows : list Row) : M unit :=
  fun w =>
    (Returned tt,
     {| w_rows := rows; w_files := w_files w;
        w_upload_dir := w_upload_dir w; w_log := w_log w |}).

(** What the caller sees: [Some r] is the response sent, [None] an exception
    that escaped the handler. *)
Definition run (m : M Response) (w : World) : option Response * World :=
  match m w with
  | (Returned r, w') => (Some r, w')
  | (Thrown, w') => (None, w')
  end.

(* ================================================================== *)
(** ** Collaborators *)

Open Scope js_scope.

(** [fs.existsSync(uploadDir)]. *)
Definition existsSync : M bool := fun w => (Returned (w_upload_dir w), w).

(** [fs.mkdirSync(uploadDir, { recursive: true })]. *)
Definition mkdirSync (ok : bool) (dir : string) : M unit :=
  log (EvMkdir dir) ;;
  if ok then
    fun w =>
      (Returned tt,
       {| w_rows := w_rows w; w_files := w_files w;
          w_upload_dir := true; w_log := w_log w |})
  else throw.

(** [fs.writeFileSync(path, data)]. *)
Definition writeFileSync (ok : bool) (path data : string) : M unit :=
  log (EvWriteFile path data) ;;
  if ok then
    fun w =>
      (Returned tt,
       {| w_rows := w_rows w; w_files := (path, data) :: w_files w;
          w_upload_dir := w_upload_dir w; w_log := w_log w |})
  else throw.

(** What a Supabase call resolves to: [{ data, error: null }] or
    [{ data: null, error }]. *)
Inductive DbResult (A : Type) :=
| Data (data : A)
| Error.

Arguments Data {A} data.
Arguments Error {A}.

(** [.order("created_at", { ascending: false })]: newest first. *)
Fixpoint insert_desc (r : Row) (l : list Row) : list Row :=
  match l with
  | [] => [r]
  | x :: t =>
      if (created_at x <=? created_at r)%Z then r :: x :: t
      else x :: insert_desc r t
  end.

Definition order_desc (l : list Row) : list Row :=
  fold_right insert_desc [] l.

Definition status_is (s : string) (r : Row) : bool :=
  String.eqb (row_status r) s.

Definition calendar_entry (r : Row) : CalendarEntry :=
  {| cal_id := id r;
     cal_full_name := full_name (cols r);
     cal_project_title := project_title (cols r);
     cal_created_at := created_at r |}.

(** [.update({ status }).eq("id", rowId)] on the rows of the table: every row
    with that identifier gets the status, a filter that matches nothing
    updates nothing. *)
Definition update_where_id (rowId : string) (newStatus : string)
    (rows : list Row) : list Row :=
  map (fun r => if String.eqb (id r) rowId then set_row_status newStatus r else r)
      rows.

(** [supabase.from("submissions").insert(c).select()]. *)
Definition db_insert (o : Oracle) (c : Columns) : M (DbResult (list Row)) :=
  log (EvInsert c) ;;
  match o_db o with
  | DbOk =>
      rows <- get_rows ;;
      let row := {| id := o_new_id o; created_at := o_created_at o; cols := c |} in
      put_rows (rows ++ [row]) ;;
      ret (Data [row])
  | DbError => ret Error
  | DbThrows => throw
  end.

(** [supabase.from("submissions").select("*").eq("status", s).order(...)]. *)
Definition db_select_by_status (o : Oracle) (s : string) : M (DbResult (list Row)) :=
  log (EvSelect s) ;;
  match o_db o with
  | DbOk =>
      rows <- get_rows ;;
      ret (Data (order_desc (filter (status_is s) rows)))
  | DbError => ret Error
  | DbThrows => throw
  end.

(** The calendar query: the same filter and order on the status literal,
    four columns selected. *)
Definition db_select_calendar (o : Oracle) : M (DbResult (list CalendarEntry)) :=
  log EvSelectCalendar ;;
  match o_db o with
  | DbOk =>
      rows <- get_rows ;;
      ret (Data (map calendar_entry
                     (order_desc (filter (status_is "approved") rows))))
  | DbError => ret Error
  | DbThrows => throw
  end.

(** [supabase.from("submissions").update({ status }).eq("id", rowId)]. *)
Definition db_update_status (o : Oracle) (newStatus rowId : string) : M (DbResult unit) :=
  log (EvUpdateStatus rowId newStatus) ;;
  match o_db o with
  | DbOk =>
      rows <- get_rows ;;
      put_rows (update_where_id rowId newStatus rows) ;;
      ret (Data tt)
  | DbError => ret Error
  | DbThrows => throw
  end.

(** [transporter.sendMail(mailOptions)]. *)
Definition sendMail (o : Oracle) (m : MailOptions) : M unit :=
  log (EvSendMail m) ;;
  if o_mail_ok o then ret tt else throw.

(** [data[0]] followed by a property read: throws on an empty array. *)
Definition first_row (data : list Row) : M Row :=
  match data with
  | row :: _ => ret row
  | [] => throw
  end.

(* ================================================================== *)
(** ** POST /api/submissions *)

Definition institutional_suffix : string := "@sfsu.edu".

(** The status expression of the intake handler. *)
Definition classify (e : string) : string :=
  if endsWith e institutional_suffix then "approved" else "pending".

Definition msg_missing : string := "Missing required fields".
Definition msg_submit_failed : string := "Failed to submit presentation".
Definition msg_auto_approved : string :=
  "Your submission has been automatically approved!".
Definition msg_pending : string :=
  "Your submission is pending approval. You'll receive an email once it's approved.".

Definition moderator_mailbox : string := "necrlresearch@gmail.com".
Definition default_app_url : string := "https://nercelsfsu.vercel.app".

Definition approval_link (h : Host) (rowId : string) : string :=
  or_default (env_NEXT_PUBLIC_APP_URL h) default_app_url
    ++ "/approve?studentId=" ++ rowId.

Definition mail_body (name mail title description approvalLink : string) : string :=
  nl ++ "          <h2>New Defense Presentation Submission</h2>"
  ++ nl ++ "          <p><strong>Student:</strong> " ++ name ++ "</p>"
  ++ nl ++ "          <p><strong>Email:</strong> " ++ mail ++ "</p>"
  ++ nl ++ "          <p><strong>Project:</strong> " ++ title ++ "</p>"
  ++ nl ++ "          <p><strong>Description:</strong> " ++ description ++ "</p>"
  ++ nl ++ "          <p>"
  ++ nl ++ "            <a href=" ++ dq ++ approvalLink ++ dq ++ " style=" ++ dq
  ++ "background-color: #231161; color: white; padding: 10px 15px; text-decoration: none; border-radius: 4px; display: inline-block; margin-top: 10px;"
  ++ dq ++ ">"
  ++ nl ++ "              Approve Submission"
  ++ nl ++ "            </a>"
  ++ nl ++ "          </p>"
  ++ nl ++ "          <p>Or copy this link: " ++ approvalLink ++ "</p>"
  ++ nl ++ "        ".

Definition mail_options (h : Host) (name mail title description approvalLink : string)
    : MailOptions :=
  {| mail_from := or_default (env_EMAIL_USER h) moderator_mailbox;
     mail_to := moderator_mailbox;
     mail_subject := "Approval Request: " ++ title;
     mail_html := mail_body name mail title description approvalLink |}.

(** One attachment: the path is built from the clock and the original name,
    then the buffer is written there. *)
Definition stage (h : Host) (now : Z) (ok : bool) (uploadDir : string) (f : File)
    : M string :=
  let p := path_join h uploadDir (number_to_string now ++ "-" ++ originalname f) in
  writeFileSync ok p (buffer f) ;;
  ret p.

Definition stage_optional (h : Host) (now : Z) (ok : bool) (uploadDir : string)
    (f : option File) : M (option string) :=
  match f with
  | Some file => p <- stage h now ok uploadDir file ;; ret (Some p)
  | None => ret None
  end.

(** [p ? `/uploads/${path.basename(p)}` : null]. *)
Definition upload_url (h : Host) (p : option string) : option string :=
  if truthy p then Some ("/uploads/" ++ path_basename h (str p)) else None.

Definition missing_required (req : SubmitReq) : bool :=
  negb (truthy (fullName req)) || negb (truthy (reqEmail req))
  || negb (truthy (projectTitle req)) || negb (truthy (projectDescription req))
  || match presentationFile req with Some _ => false | None => true end.

(** The block that creates the upload directory and saves the files; it
    yields [presentationPath], [paperPath] and [logoPath].  The handler only
    gets here with a presentation part, whose array is read at index 0. *)
Definition save_files (h : Host) (req : SubmitReq) (o : Oracle)
    : M (string * option string * option string) :=
  let uploadDir := path_join h (dirname h) "uploads" in
  present <- existsSync ;;
  (if negb present then mkdirSync (o_mkdir_ok o) uploadDir else ret tt) ;;
  presentationPath <-
    match presentationFile req with
    | Some f => stage h (o_now_presentation o) (o_write_presentation_ok o) uploadDir f
    | None => throw
    end ;;
  paperPath <- stage_optional h (o_now_paper o) (o_write_paper_ok o) uploadDir
                 (paperFile req) ;;
  logoPath <- stage_optional h (o_now_logo o) (o_write_logo_ok o) uploadDir
                (logoFile req) ;;
  ret (presentationPath, paperPath, logoPath).

(** The object handed to [insert]. *)
Definition new_columns (h : Host) (req : SubmitReq)
    (paths : string * option string * option string) : Columns :=
  let '(presentationPath, paperPath, logoPath) := paths in
  {| full_name := str (fullName req);
     email := str (reqEmail req);
     project_title := str (projectTitle req);
     project_description := str (projectDescription req);
     video_link := or_null (videoLink req);
     presentation_url := "/uploads/" ++ path_basename h presentationPath;
     paper_url := upload_url h paperPath;
     logo_url := upload_url h logoPath;
     status := classify (str (reqEmail req)) |}.

(** The block guarded by [!email.endsWith("@sfsu.edu")]. *)
Definition send_approval_email (h : Host) (req : SubmitReq) (o : Oracle)
    (data : list Row) : M unit :=
  row <- first_row data ;;
  sendMail o (mail_options h (str (fullName req)) (str (reqEmail req))
                (str (projectTitle req)) (str (projectDescription req))
                (approval_link h (id row))).

Definition post_submissions (h : Host) (req : SubmitReq) (o : Oracle) : M Response :=
  try_catch
    (if missing_required req then ret (json 400 false msg_missing)
     else
       paths <- save_files h req o ;;
       res <- db_insert o (new_columns h req paths) ;;
       match res with
       | Error => ret (json 500 false msg_submit_failed)
       | Data data =>
           (if negb (endsWith (str (reqEmail req)) institutional_suffix)
            then send_approval_email h req o data
            else ret tt) ;;
           ret (json 200 true
                  (if endsWith (str (reqEmail req)) institutional_suffix
                   then msg_auto_approved else msg_pending))
       end)
    (ret (json 500 false msg_submit_failed)).

(* ================================================================== *)
(** ** GET /api/submissions, GET /api/calendar, POST /api/approve *)

Definition msg_status_required : string := "Status parameter is required".
Definition msg_fetch_failed : string := "Failed to fetch submissions".
Definition msg_calendar_failed : string := "Failed to fetch approved submissions".
Definition msg_id_required : string := "Student ID is required".
Definition msg_approve_failed : string := "Failed to approve submission".
Definition msg_approved : string := "Submission approved successfully".

Definition get_submissions (statusParam : option string) (o : Oracle) : M Response :=
  try_catch
    (if negb (truthy statusParam) then ret (json 400 false msg_status_required)
     else
       res <- db_select_by_status o (str statusParam) ;;
       match res with
       | Error => ret (json 500 false msg_fetch_failed)
       | Data data => ret {| code := 200; body := Rows data |}
       end)
    (ret (json 500 false msg_fetch_failed)).

Definition get_calendar (o : Oracle) : M Response :=
  try_catch
    (res <- db_select_calendar o ;;
     match res with
     | Error => ret (json 500 false msg_calendar_failed)
     | Data data => ret {| code := 200; body := Calendar data |}
     end)
    (ret (json 500 false msg_calendar_failed)).

Definition post_approve (studentId : option string) (o : Oracle) : M Response :=
  try_catch
    (if negb (truthy studentId) then ret (json 400 false msg_id_required)
     else
       res <- db_update_status o "approved" (str studentId) ;;
       match res with
       | Error => ret (json 500 false msg_approve_failed)
       | Data _ => ret (json 200 true msg_approved)
       end)
    (ret (json 500 false msg_approve_failed)).

(** The router. *)
Definition handle (h : Host) (rq : Request) (o : Oracle) : M Response :=
  match rq with
  | PostSubmissions req => post_submissions h req o
  | GetSubmissions statusParam => get_submissions statusParam o
  | GetCalendar => get_calendar o
  | PostApprove studentId => post_approve studentId o
  end.

(** One request served: the world after it. *)
Inductive step (h : Host) : World -> World -> Prop :=
| step_handle (rq : Request) (o : Oracle) (w : World) :
    step h w (snd (handle h rq o w)).

(** Any number of requests served one after the other. *)
Definition reachable (h : Host) : World -> World -> Prop :=
  clos_refl_trans_n1 World (step h).

(* ================================================================== *)
(** ** Concrete hosts, requests and worlds *)

(** The last [/]-separated segment of a path. *)
Fixpoint last_segment (s acc : string) : string :=
  match s with
  | EmptyString => acc
  | String c t =>
      if Ascii.eqb c "/"%char then last_segment t EmptyString
      else last_segment t (acc ++ String c EmptyString)
  end.

Definition sample_host : Host :=
  {| path_join := fun a b => a ++ "/" ++ b;
     path_basename := fun p => last_segment p EmptyString;
     dirname := "/srv/app";
     env_NEXT_PUBLIC_APP_URL := None;
     env_EMAIL_USER := None |}.

Definition sample_file : File :=
  {| originalname := "slides.pdf"; buffer := "%PDF" |}.

Definition sample_req (mail : string) : SubmitReq :=
  {| fullName := Some "Ada";
     reqEmail := Some mail;
     projectTitle := Some "Thesis";
     projectDescription := Some "A study";
     videoLink := None;
     presentationFile := Some sample_file;
     paperFile := None;
     logoFile := None |}.

Definition sample_oracle (db : DbOutcome) (mailOk : bool) (newId : string) (at_ : Z)
    : Oracle :=
  {| o_now_presentation := 1700000000000;
     o_now_paper := 1700000000001;
     o_now_logo := 1700000000002;
     o_mkdir_ok := true;
     o_write_presentation_ok := true;
     o_write_paper_ok := true;
     o_write_logo_ok := true;
     o_db := db;
     o_new_id := newId;
     o_created_at := at_;
     o_mail_ok := mailOk |}.

Definition empty_world : World :=
  {| w_rows := []; w_files := []; w_upload_dir := false; w_log := [] |}.

Definition sample_row (rowId : string) (at_ : Z) (mail st : string) : Row :=
  {| id := rowId;
     created_at := at_;
     cols := {| full_name := "Ada";
                email := mail;
                project_title := "Thesis";
                project_description := "A study";
                video_link := None;
                presentation_url := "/uploads/1-slides.pdf";
                paper_url := None;
                logo_url := None;
                status := st |} |}.

(** A table with one pending and two approved submissions. *)
Definition sample_world : World :=
  {| w_rows := [ sample_row "1" 10 "a@sfsu.edu" "approved";
                 sample_row "2" 20 "b@gmail.com" "pending";
                 sample_row "3" 30 "c@sfsu.edu" "approved" ];
     w_files := [];
     w_upload_dir := true;
     w_log := [] |}.

(** Reading the log. *)
Definition sent_mails (l : list Event) : list MailOptions :=
  flat_map (fun e => match e with EvSendMail m => [m] | _ => [] end) l.

Definition inserted (l : list Event) : list Columns :=
  flat_map (fun e => match e with EvInsert c => [c] | _ => [] end) l.

(** A field that is missing from a request: not sent, or sent empty. *)
Definition absent (v : option string) : Prop :=
  v = None \/ v = Some EmptyString.

(** The attachments were written: the upload directory exists or could be
    created, and every write of a part that was sent went through. *)
Definition staging_succeeds (req : SubmitReq) (o : Oracle) (w : World) : bool :=
  (w_upload_dir w || o_mkdir_ok o)
  && o_write_presentation_ok o
  && match paperFile req with Some _ => o_write_paper_ok o | None => true end
  && match logoFile req with Some _ => o_write_logo_ok o | None => true end.

(** Newest first. *)
Definition newer_or_equal (a b : Row) : Prop := (created_at b <= created_at a)%Z.

Definition newest_first (l : list Row) : Prop := StronglySorted newer_or_equal l.

(** A row that kept everything, or everything but a status set to approved. *)
Definition moved_forward (r r' : Row) : Prop :=
  r' = r \/ r' = set_row_status "approved" r.

(** The only status values the handlers may hand to the table. *)
Definition status_write_ok (e : Event) : Prop :=
  match e with
  | EvInsert c => status c = classify (email c)
  | EvUpdateStatus _ s => s = "approved"
  | _ => True
  end.

(** A row created by an intake, possibly approved since. *)
Definition classified_or_approved (r : Row) : Prop :=
  row_status r = classify (email (cols r)) \/ row_status r = "approved".

(** [rows'] holds the rows of [rows] at their positions, each moved forward,
    followed by rows created since. *)
Definition rows_forward (rows rows' : list Row) : Prop :=
  exists kept created,
    rows' = (kept ++ created)%list
    /\ Forall2 moved_forward rows kept
    /\ Forall classified_or_approved created.

(** [t] occurs in [s]. *)
Definition contains (s t : string) : Prop :=
  exists before after, s = before ++ t ++ after.

(** Requests and answers used as concrete inputs. *)
Definition gmail_req : SubmitReq := sample_req "x@gmail.com".
Definition sfsu_req : SubmitReq := sample_req "x@sfsu.edu".
Definition all_fine : Oracle := sample_oracle DbOk true "7" 40.
Definition mail_down : Oracle := sample_oracle DbOk false "7" 40.

Definition no_file_req : SubmitReq :=
  {| fullName := Some "Ada";
     reqEmail := Some "x@gmail.com";
     projectTitle := Some "Thesis";
     projectDescription := Some "A study";
     videoLink := None;
     presentationFile := None;
     paperFile := None;
     logoFile := None |}.

(** A run of two requests on the sample table: a submission from a
    non-institutional address, then the approval of the row it created. *)
Definition sample_run_end : World :=
  snd (handle sample_host (PostApprove (Some "7")) all_fine
         (snd (handle sample_host (PostSubmissions gmail_req) all_fine sample_world))).

(* ================================================================== *)
(** ** GET /approve *)

(** What the page route sends: [res.redirect(location)] or [res.send(html)]. *)
Inductive PageResponse :=
| Redirect (location : string)
| Page (html : string).

(** The confirmation page, with the identifier spliced into its script. *)
Definition approve_page_html (studentId : string) : string :=
  nl ++ "    <!DOCTYPE html>"
  ++ nl ++ "    <html>"
  ++ nl ++ "    <head>"
  ++ nl ++ "      <title>Approve Submission</title>"
  ++ nl ++ "      <style>"
  ++ nl ++ "        body {"
  ++ nl ++ "          font-family: Arial, sans-serif;"
  ++ nl ++ "          max-width: 600px;"
  ++ nl ++ "          margin: 0 auto;"
  ++ nl ++ "          padding: 20px;"
  ++ nl ++ "        }"
  ++ nl ++ "        .card {"
  ++ nl ++ "          border: 2px solid #231161;"
  ++ nl ++ "          border-radius: 10px;"
  ++ nl ++ "          padding: 20px;"
  ++ nl ++ "          margin-top: 40px;"
  ++ nl ++ "        }"
  ++ nl ++ "        h1 {"
  ++ nl ++ "          color: #231161;"
  ++ nl ++ "        }"
  ++ nl ++ "        .button {"
  ++ nl ++ "          background-color: #231161;"
  ++ nl ++ "          color: white;"
  ++ nl ++ "          border: none;"
  ++ nl ++ "          padding: 10px 20px;"
  ++ nl ++ "          border-radius: 5px;"
  ++ nl ++ "          cursor: pointer;"
  ++ nl ++ "          font-size: 16px;"
  ++ nl ++ "          margin-top: 20px;"
  ++ nl ++ "        }"
  ++ nl ++ "        .button:hover {"
  ++ nl ++ "          background-color: #463077;"
  ++ nl ++ "        }"
  ++ nl ++ "      </style>"
  ++ nl ++ "    </head>"
  ++ nl ++ "    <body>"
  ++ nl ++ "      <div class=" ++ dq ++ "card" ++ dq ++ ">"
  ++ nl ++ "        <h1>Approve Submission</h1>"
  ++ nl ++ "        <p>You are about to approve a defense presentation submission. Once approved, it will be visible on the main page.</p>"
  ++ nl ++ "        <button class=" ++ dq ++ "button" ++ dq ++ " id=" ++ dq ++ "approveBtn" ++ dq ++ ">Confirm Approval</button>"
  ++ nl ++ "      </div>"
  ++ nl ++ "      "
  ++ nl ++ "      <script>"
  ++ nl ++ "        document.getElementById('approveBtn').addEventListener('click', async () => {"
  ++ nl ++ "          try {"
  ++ nl ++ "            const response = await fetch('/api/approve', {"
  ++ nl ++ "              method: 'POST',"
  ++ nl ++ "              headers: {"
  ++ nl ++ "                'Content-Type': 'application/json'"
  ++ nl ++ "              },"
  ++ nl ++ "              body: JSON.stringify({ studentId: '" ++ studentId ++ "' })"
  ++ nl ++ "            });"
  ++ nl ++ "            "
  ++ nl ++ "            const result = await response.json();"
  ++ nl ++ "            "
  ++ nl ++ "            if (result.success) {"
  ++ nl ++ "              window.location.href = '/?approved=true';"
  ++ nl ++ "            } else {"
  ++ nl ++ "              window.location.href = '/?error=true';"
  ++ nl ++ "            }"
  ++ nl ++ "          } catch (error) {"
  ++ nl ++ "            console.error('Error:', error);"
  ++ nl ++ "            window.location.href = '/?error=true';"
  ++ nl ++ "          }"
  ++ nl ++ "        });"
  ++ nl ++ "      </script>"
  ++ nl ++ "    </body>"
  ++ nl ++ "    </html>"
  ++ nl ++ "  ".

Definition get_approve (studentId : option string) : PageResponse :=
  if negb (truthy studentId) then Redirect "/?error=missing-id"
  else Page (approve_page_html (str studentId)).

(* ================================================================== *)
(** ** Reading worlds and logs *)

Definition written (l : list Event) : list (string * string) :=
  flat_map (fun e => match e with EvWriteFile p d => [(p, d)] | _ => [] end) l.

Definition made_dirs (l : list Event) : list string :=
  flat_map (fun e => match e with EvMkdir d => [d] | _ => [] end) l.

Definition updates (l : list Event) : list (string * string) :=
  flat_map (fun e => match e with EvUpdateStatus i s => [(i, s)] | _ => [] end) l.

(** The content last written at a path. *)
Fixpoint read_file (path : string) (files : list (string * string)) : option string :=
  match files with
  | [] => None
  | (p, d) :: rest => if String.eqb p path then Some d else read_file path rest
  end.

(** [uploadDir] and the path a part is saved at. *)
Definition upload_dir (h : Host) : string := path_join h (dirname h) "uploads".

Definition staged_name (now : Z) (f : File) : string :=
  number_to_string now ++ "-" ++ originalname f.

Definition staged_path (h : Host) (now : Z) (f : File) : string :=
  path_join h (upload_dir h) (staged_name now f).

Definition part (h : Host) (now : Z) (f : option File) : list (string * string) :=
  match f with
  | Some file => [(staged_path h now file, buffer file)]
  | None => []
  end.

(** The parts of a request with the paths they are saved at, in the order
    the handler saves them. *)
Definition staged_parts (h : Host) (req : SubmitReq) (o : Oracle)
    : list (string * string) :=
  (part h (o_now_presentation o) (presentationFile req)
   ++ part h (o_now_paper o) (paperFile req)
   ++ part h (o_now_logo o) (logoFile req))%list.

(** The three paths a request whose parts were all saved yields. *)
Definition staged_paths (h : Host) (req : SubmitReq) (o : Oracle) (f : File)
    : string * option string * option string :=
  (staged_path h (o_now_presentation o) f,
   option_map (staged_path h (o_now_paper o)) (paperFile req),
   option_map (staged_path h (o_now_logo o)) (logoFile req)).

Definition write_event (pd : string * string) : Event :=
  EvWriteFile (fst pd) (snd pd).

(** The world once every part of a request has been saved. *)
Definition staged_world (h : Host) (req : SubmitReq) (o : Oracle) (w : World) : World :=
  {| w_rows := w_rows w;
     w_files := rev (staged_parts h req o) ++ w_files w;
     w_upload_dir := true;
     w_log := w_log w
              ++ (if w_upload_dir w then [] else [EvMkdir (upload_dir h)])
              ++ map write_event (staged_parts h req o) |}.

(** The mail the intake handler composes for a request. *)
Definition approval_mail (h : Host) (req : SubmitReq) (rowId : string) : MailOptions :=
  mail_options h (str (fullName req)) (str (reqEmail req))
    (str (projectTitle req)) (str (projectDescription req))
    (approval_link h rowId).

Definition is_digit (c : ascii) : bool :=
  (48 <=? nat_of_ascii c)%nat && (nat_of_ascii c <=? 57)%nat.

Fixpoint all_digits (s : string) : bool :=
  match s with
  | EmptyString => true
  | String c t => is_digit c && all_digits t
  end.

(** More concrete inputs. *)
Definition paper_file : File :=
  {| originalname := "slides.pdf"; buffer := "paper bytes" |}.

Definition two_part_req : SubmitReq :=
  {| fullName := Some "Ada";
     reqEmail := Some "x@gmail.com";
     projectTitle := Some "Thesis";
     projectDescription := Some "A study";
     videoLink := Some "https://example.org/v";
     presentationFile := Some sample_file;
     paperFile := Some paper_file;
     logoFile := None |}.

Definition paper_write_fails : Oracle :=
  {| o_now_presentation := 1700000000000;
     o_now_paper := 1700000000001;
     o_now_logo := 1700000000002;
     o_mkdir_ok := true;
     o_write_presentation_ok := true;
     o_write_paper_ok := false;
     o_write_logo_ok := true;
     o_db := DbOk;
     o_new_id := "7";
     o_created_at := 40;
     o_mail_ok := true |}.

Definition same_millisecond : Oracle :=
  {| o_now_presentation := 1700000000000;
     o_now_paper := 1700000000000;
     o_now_logo := 1700000000000;
     o_mkdir_ok := true;
     o_write_presentation_ok := true;
     o_write_paper_ok := true;
     o_write_logo_ok := true;
     o_db := DbOk;
     o_new_id := "7";
     o_created_at := 40;
     o_mail_ok := true |}.

Definition db_down : Oracle := sample_oracle DbError true "7" 40.

(* ================================================================== *)
(** * Properties *)

(** ** Strings *)

Lemma length_append (s t : string) :
  String.length (s ++ t) = String.length s + String.length t.
Proof. induction s as [|c s IH]; simpl; [reflexivity | now rewrite IH]. Qed.

Lemma substring_all (s : string) : substring 0 (String.length s) s = s.
Proof. induction s as [|c s IH]; simpl; [reflexivity | now rewrite IH]. Qed.

Lemma substring_split (s : string) :
  forall n, n <= String.length s ->
  substring 0 n s ++ substring n (String.length s - n) s = s.
Proof.
  induction s as [|c s IH]; intros [|n] Hn; simpl in *; try reflexivity.
  - now rewrite substring_all.
  - f_equal. apply IH. lia.
Qed.

Lemma substring_skip_prefix (p t : string) :
  substring (String.length p) (String.length t) (p ++ t) = t.
Proof.
  induction p as [|c p IH]; simpl.
  - apply substring_all.
  - exact IH.
Qed.

(** [endsWith] computes the suffix relation. *)
Lemma endsWith_iff (s t : string) :
  endsWith s t = true <-> exists p, s = p ++ t.
Proof.
  unfold endsWith. split.
  - destruct (Nat.ltb_spec (String.length s) (String.length t)) as [Hlt|Hge];
      [discriminate|].
    intros H. apply String.eqb_eq in H.
    exists (substring 0 (String.length s - String.length t) s).
    assert (E := substring_split s (String.length s - String.length t) ltac:(lia)).
    replace (String.length s - (String.length s - String.length t))
      with (String.length t) in E by lia.
    rewrite H in E. now symmetry.
  - intros [p ->]. rewrite length_append.
    destruct (Nat.ltb_spec (String.length p + String.length t) (String.length t));
      [lia|].
    replace (String.length p + String.length t - String.length t)
      with (String.length p) by lia.
    rewrite substring_skip_prefix. apply String.eqb_refl.
Qed.

Lemma classify_cases (e : string) :
  (endsWith e institutional_suffix = true /\ classify e = "approved")
  \/ (endsWith e institutional_suffix = false /\ classify e = "pending").
Proof. unfold classify. destruct (endsWith e institutional_suffix); auto. Qed.

(** C3: the status computed at intake is approved exactly for the addresses
    that end with the literal [@sfsu.edu], compared character by character
    with no trimming and no case folding, and pending for every other
    address; the three addresses of the specification classify as it says. *)
Theorem classify_exact_suffix :
  (forall e, classify e = "approved" <-> exists p, e = p ++ "@sfsu.edu")
  /\ (forall e, classify e = "pending" <-> ~ exists p, e = p ++ "@sfsu.edu")
  /\ classify "a@SFSU.EDU" = "pending"
  /\ classify "a@sfsu.edu" = "approved"
  /\ classify "a@sfsu.edu.com" = "pending"
  /\ classify "a@sfsu.edu " = "pending".
Proof.
  split; [|split]; [| |repeat split].
  - intros e. rewrite <- (endsWith_iff e "@sfsu.edu").
    destruct (classify_cases e) as [[H ->]|[H ->]];
      unfold institutional_suffix in H; rewrite H; split; congruence.
  - intros e. rewrite <- (endsWith_iff e "@sfsu.edu").
    destruct (classify_cases e) as [[H ->]|[H ->]];
      unfold institutional_suffix in H; rewrite H; split; congruence.
Qed.

(** ** The table: ordering and updates *)

Lemma insert_desc_perm (r : Row) (l : list Row) :
  Permutation (insert_desc r l) (r :: l).
Proof.
  induction l as [|x t IH]; simpl; [reflexivity|].
  destruct (created_at x <=? created_at r)%Z; [reflexivity|].
  rewrite IH. apply perm_swap.
Qed.

Lemma order_desc_perm (l : list Row) : Permutation (order_desc l) l.
Proof.
  induction l as [|r l IH]; simpl; [constructor|].
  rewrite insert_desc_perm. now constructor.
Qed.

Lemma insert_desc_sorted (r : Row) (l : list Row) :
  newest_first l -> newest_first (insert_desc r l).
Proof.
  unfold newest_first. induction 1 as [|x t Hs IH Hall]; simpl.
  - constructor; constructor.
  - destruct (Z.leb_spec (created_at x) (created_at r)) as [Hle|Hgt].
    + constructor; [constructor; assumption|].
      constructor; [exact Hle|].
      eapply Forall_impl; [|exact Hall].
      unfold newer_or_equal. intros a Ha. lia.
    + constructor; [exact IH|].
      eapply Permutation_Forall; [symmetry; apply insert_desc_perm|].
      constructor; [unfold newer_or_equal; lia | exact Hall].
Qed.

Lemma order_desc_sorted (l : list Row) : newest_first (order_desc l).
Proof.
  induction l as [|r l IH]; simpl; [constructor|].
  now apply insert_desc_sorted.
Qed.

Lemma order_desc_filter_In (s : string) (rows : list Row) (r : Row) :
  In r (order_desc (filter (status_is s) rows))
  <-> In r rows /\ row_status r = s.
Proof.
  split.
  - intros H. apply (Permutation_in _ (order_desc_perm _)) in H.
    apply filter_In in H. destruct H as [Hin Hs]. split; [exact Hin|].
    now apply String.eqb_eq.
  - intros [Hin Hs].
    apply (Permutation_in _ (Permutation_sym (order_desc_perm _))).
    apply filter_In. split; [exact Hin|]. now apply String.eqb_eq.
Qed.

Lemma update_where_id_absent (sid s : string) (rows : list Row) :
  (forall r, In r rows -> id r <> sid) -> update_where_id sid s rows = rows.
Proof.
  unfold update_where_id. induction rows as [|r rows IH]; intros H; simpl.
  - reflexivity.
  - destruct (String.eqb_spec (id r) sid) as [E|_].
    + exfalso. apply (H r); [now left | exact E].
    + f_equal. apply IH. intros r' Hr'. apply H. now right.
Qed.

Lemma update_where_id_idem (sid s : string) (rows : list Row) :
  update_where_id sid s (update_where_id sid s rows) = update_where_id sid s rows.
Proof.
  unfold update_where_id. rewrite map_map. apply map_ext. intros r.
  destruct (String.eqb (id r) sid) eqn:E; simpl; rewrite E; reflexivity.
Qed.

Lemma update_where_id_nth (sid s : string) (rows : list Row) (k : nat) (r : Row) :
  nth_error rows k = Some r ->
  nth_error (update_where_id sid s rows) k
  = Some (if String.eqb (id r) sid then set_row_status s r else r).
Proof.
  intros H. unfold update_where_id. rewrite nth_error_map, H. reflexivity.
Qed.

Lemma set_row_status_same (r : Row) :
  set_row_status (row_status r) r = r.
Proof. destruct r as [i t [a b c d e f g h' st]]. reflexivity. Qed.

(** ** What each handler returns and leaves behind *)

Lemma post_approve_missing (studentId : option string) (o : Oracle) (w : World) :
  truthy studentId = false ->
  post_approve studentId o w = (Returned (json 400 false msg_id_required), w).
Proof. intros H. unfold post_approve, try_catch. now rewrite H. Qed.

Lemma post_approve_run (sid : string) (o : Oracle) (w : World) :
  sid <> EmptyString ->
  post_approve (Some sid) o w
  = match o_db o with
    | DbOk =>
        (Returned (json 200 true msg_approved),
         {| w_rows := update_where_id sid "approved" (w_rows w);
            w_files := w_files w;
            w_upload_dir := w_upload_dir w;
            w_log := w_log w ++ [EvUpdateStatus sid "approved"] |})
    | _ =>
        (Returned (json 500 false msg_approve_failed),
         {| w_rows := w_rows w;
            w_files := w_files w;
            w_upload_dir := w_upload_dir w;
            w_log := w_log w ++ [EvUpdateStatus sid "approved"] |})
    end.
Proof.
  intros H. apply String.eqb_neq in H.
  unfold post_approve, try_catch, db_update_status, bind; simpl.
  rewrite H; simpl. destruct (o_db o); reflexivity.
Qed.

Lemma get_submissions_missing (statusParam : option string) (o : Oracle) (w : World) :
  truthy statusParam = false ->
  get_submissions statusParam o w
  = (Returned (json 400 false msg_status_required), w).
Proof. intros H. unfold get_submissions, try_catch. now rewrite H. Qed.

Lemma get_submissions_run (s : string) (o : Oracle) (w : World) :
  s <> EmptyString ->
  get_submissions (Some s) o w
  = (Returned
       match o_db o with
       | DbOk => {| code := 200;
                    body := Rows (order_desc (filter (status_is s) (w_rows w))) |}
       | _ => json 500 false msg_fetch_failed
       end,
     {| w_rows := w_rows w;
        w_files := w_files w;
        w_upload_dir := w_upload_dir w;
        w_log := w_log w ++ [EvSelect s] |}).
Proof.
  intros H. apply String.eqb_neq in H.
  unfold get_submissions, try_catch, db_select_by_status, bind; simpl.
  rewrite H; simpl. destruct (o_db o); reflexivity.
Qed.

Lemma get_calendar_run (o : Oracle) (w : World) :
  get_calendar o w
  = (Returned
       match o_db o with
       | DbOk => {| code := 200;
                    body := Calendar
                              (map calendar_entry
                                 (order_desc (filter (status_is "approved") (w_rows w)))) |}
       | _ => json 500 false msg_calendar_failed
       end,
     {| w_rows := w_rows w;
        w_files := w_files w;
        w_upload_dir := w_upload_dir w;
        w_log := w_log w ++ [EvSelectCalendar] |}).
Proof.
  unfold get_calendar, try_catch, db_select_calendar, bind; simpl.
  destruct (o_db o); reflexivity.
Qed.

Lemma absent_truthy (v : option string) : absent v <-> truthy v = false.
Proof.
  unfold absent. split.
  - intros [->| ->]; reflexivity.
  - destruct v as [s|]; simpl; [|now left].
    destruct (String.eqb_spec s EmptyString) as [->|]; [now right | discriminate].
Qed.

Lemma truthy_Some (s : string) : s <> EmptyString -> truthy (Some s) = true.
Proof. intros H. simpl. apply String.eqb_neq in H. now rewrite H. Qed.

(** ** The intake handler, block by block *)

Ltac unfold_effects :=
  unfold send_approval_email, db_insert, stage_optional;
  unfold stage, sendMail, first_row;
  unfold writeFileSync, mkdirSync, existsSync, get_rows, put_rows, log;
  unfold try_catch, bind, ret, throw.

Ltac close_frame :=
  rewrite <- ?app_assoc;
  eexists; split; [first [reflexivity | symmetry; apply app_nil_r]|];
  repeat split; repeat constructor.

(** Saving the files touches neither the table nor the mail transport. *)
Lemma save_files_frame (h : Host) (req : SubmitReq) (o : Oracle) (w : World) :
  exists delta,
    w_log (snd (save_files h req o w)) = (w_log w ++ delta)%list
    /\ inserted delta = []
    /\ sent_mails delta = []
    /\ Forall status_write_ok delta
    /\ w_rows (snd (save_files h req o w)) = w_rows w.
Proof.
  unfold save_files. unfold_effects.
  destruct (w_upload_dir w), (o_mkdir_ok o), (presentationFile req),
    (o_write_presentation_ok o), (paperFile req), (o_write_paper_ok o),
    (logoFile req), (o_write_logo_ok o); simpl; close_frame.
Qed.

Lemma save_files_ok (h : Host) (req : SubmitReq) (o : Oracle) (w : World) :
  presentationFile req <> None ->
  staging_succeeds req o w = true ->
  exists paths, fst (save_files h req o w) = Returned paths.
Proof.
  unfold staging_succeeds, save_files. unfold_effects. intros Hp Hs.
  destruct (presentationFile req); [|congruence].
  destruct (w_upload_dir w), (o_mkdir_ok o), (o_write_presentation_ok o),
    (paperFile req), (o_write_paper_ok o), (logoFile req), (o_write_logo_ok o);
    simpl in *; try discriminate; eexists; reflexivity.
Qed.

Lemma missing_required_false (req : SubmitReq) :
  missing_required req = false ->
  truthy (fullName req) = true /\ truthy (reqEmail req) = true
  /\ truthy (projectTitle req) = true /\ truthy (projectDescription req) = true
  /\ presentationFile req <> None.
Proof.
  unfold missing_required.
  destruct (truthy (fullName req)), (truthy (reqEmail req)),
    (truthy (projectTitle req)), (truthy (projectDescription req)),
    (presentationFile req); simpl; intros H; try discriminate;
    repeat split; congruence.
Qed.

Lemma missing_required_true (req : SubmitReq) :
  absent (fullName req) \/ absent (reqEmail req) \/ absent (projectTitle req)
  \/ absent (projectDescription req) \/ presentationFile req = None
  <-> missing_required req = true.
Proof.
  unfold missing_required. rewrite !absent_truthy.
  destruct (truthy (fullName req)), (truthy (reqEmail req)),
    (truthy (projectTitle req)), (truthy (projectDescription req)),
    (presentationFile req); simpl; intuition congruence.
Qed.

Lemma post_submissions_missing (h : Host) (req : SubmitReq) (o : Oracle) (w : World) :
  missing_required req = true ->
  post_submissions h req o w = (Returned (json 400 false msg_missing), w).
Proof. intros H. unfold post_submissions, try_catch. now rewrite H. Qed.

(** A request that was validated, staged and inserted: the row appended, the
    calls logged and the response, whatever the mail transport does. *)
Lemma post_submissions_persisted (h : Host) (req : SubmitReq) (o : Oracle) (w : World) :
  missing_required req = false ->
  staging_succeeds req o w = true ->
  o_db o = DbOk ->
  exists paths delta,
    inserted delta = []
    /\ sent_mails delta = []
    /\ w_rows (snd (post_submissions h req o w))
       = (w_rows w
          ++ [{| id := o_new_id o; created_at := o_created_at o;
                 cols := new_columns h req paths |}])%list
    /\ w_log (snd (post_submissions h req o w))
       = (w_log w ++ delta
          ++ EvInsert (new_columns h req paths)
          :: (if endsWith (str (reqEmail req)) institutional_suffix then []
              else [EvSendMail
                      (mail_options h (str (fullName req)) (str (reqEmail req))
                         (str (projectTitle req)) (str (projectDescription req))
                         (approval_link h (o_new_id o)))]))%list
    /\ fst (post_submissions h req o w)
       = Returned
           (if endsWith (str (reqEmail req)) institutional_suffix
            then json 200 true msg_auto_approved
            else if o_mail_ok o then json 200 true msg_pending
                 else json 500 false msg_submit_failed).
Proof.
  intros Hv Hs Hdb.
  destruct (missing_required_false req Hv) as (_ & _ & _ & _ & Hp).
  destruct (save_files_ok h req o w Hp Hs) as [paths Hpaths].
  destruct (save_files_frame h req o w) as (delta & Hlog & Hi & Hm & _ & Hrows).
  exists paths, delta.
  unfold post_submissions. rewrite Hv. unfold try_catch, bind.
  destruct (save_files h req o w) as [out w1]. simpl in Hpaths, Hlog, Hrows.
  subst out. unfold_effects. rewrite Hdb. simpl.
  destruct (endsWith (str (reqEmail req)) institutional_suffix); simpl;
    [|destruct (o_mail_ok o); simpl];
    rewrite Hlog, Hrows, <- ?app_assoc; simpl; repeat split; assumption.
Qed.

(** Whatever happens, the intake handler answers, appends at most one row,
    whose status is the classification of its email, and hands no other status
    to the table. *)
Lemma post_submissions_effect (h : Host) (req : SubmitReq) (o : Oracle) (w : World) :
  exists delta,
    w_log (snd (post_submissions h req o w)) = (w_log w ++ delta)%list
    /\ Forall status_write_ok delta
    /\ (w_rows (snd (post_submissions h req o w)) = w_rows w
        \/ exists row,
             w_rows (snd (post_submissions h req o w)) = (w_rows w ++ [row])%list
             /\ row_status row = classify (email (cols row))).
Proof.
  destruct (missing_required req) eqn:Hv.
  { rewrite post_submissions_missing by exact Hv. simpl.
    exists []. rewrite app_nil_r. auto. }
  destruct (save_files_frame h req o w) as (delta & Hlog & _ & _ & Hok & Hrows).
  unfold post_submissions. rewrite Hv. unfold try_catch, bind.
  destruct (save_files h req o w) as [[paths|] w1]; simpl in Hlog, Hrows.
  - assert (Hc : status_write_ok (EvInsert (new_columns h req paths))).
    { destruct paths as [[p1 p2] p3]. reflexivity. }
    unfold_effects.
    destruct (o_db o); simpl;
      [destruct (endsWith (str (reqEmail req)) institutional_suffix); simpl;
       [|destruct (o_mail_ok o); simpl]| |];
      rewrite Hlog, ?Hrows, <- ?app_assoc;
      (eexists; split; [reflexivity|]; split;
       [apply Forall_app; split; [exact Hok | repeat constructor; exact Hc]|]);
      first [left; reflexivity
            | right; eexists; split; [reflexivity|];
              destruct paths as [[p1 p2] p3]; reflexivity].
  - unfold ret. simpl. exists delta. auto.
Qed.

Lemma post_submissions_returns (h : Host) (req : SubmitReq) (o : Oracle) (w : World) :
  exists r, fst (post_submissions h req o w) = Returned r.
Proof.
  unfold post_submissions, try_catch.
  match goal with |- context [match ?m w with _ => _ end] => destruct (m w) as [[r|] w1] end;
    eexists; reflexivity.
Qed.

Lemma run_fst (m : M Response) (w : World) (r : Response) :
  fst (m w) = Returned r -> fst (run m w) = Some r.
Proof. unfold run. destruct (m w) as [[r'|] w']; simpl; congruence. Qed.

Lemma run_snd (m : M Response) (w : World) : snd (run m w) = snd (m w).
Proof. unfold run. destruct (m w) as [[r'|] w']; reflexivity. Qed.

Lemma run_eq (m : M Response) (w w' : World) (r : Response) :
  m w = (Returned r, w') -> run m w = (Some r, w').
Proof. unfold run. intros ->. reflexivity. Qed.

Lemma sent_mails_app (l1 l2 : list Event) :
  sent_mails (l1 ++ l2) = (sent_mails l1 ++ sent_mails l2)%list.
Proof. apply flat_map_app. Qed.

Lemma inserted_app (l1 l2 : list Event) :
  inserted (l1 ++ l2) = (inserted l1 ++ inserted l2)%list.
Proof. apply flat_map_app. Qed.

Lemma contains_here (t after : string) : contains (t ++ after) t.
Proof. exists EmptyString, after. reflexivity. Qed.

Lemma contains_skip (a s t : string) : contains s t -> contains (a ++ s) t.
Proof.
  intros (b & c & ->). exists (a ++ b), c.
  induction a as [|x a IH]; simpl; [reflexivity | now rewrite IH].
Qed.

Lemma mail_body_contains_link (name mail title description link : string) :
  contains (mail_body name mail title description link) link.
Proof.
  unfold mail_body.
  repeat first [apply contains_here | apply contains_skip].
Qed.

Lemma new_columns_fields (h : Host) (req : SubmitReq)
    (paths : string * option string * option string) :
  email (new_columns h req paths) = str (reqEmail req)
  /\ status (new_columns h req paths) = classify (str (reqEmail req))
  /\ full_name (new_columns h req paths) = str (fullName req)
  /\ project_title (new_columns h req paths) = str (projectTitle req)
  /\ project_description (new_columns h req paths) = str (projectDescription req).
Proof. destruct paths as [[p1 p2] p3]. repeat split. Qed.

(** ** Intake *)

(** C6: an intake request that lacks the full name, the email, the project
    title, the project description (not sent, or sent empty) or the
    presentation file is answered 400 with the missing-fields message, and the
    world is left exactly as it was: no file written, no insert, no mail, no
    call to any collaborator logged. *)
Theorem missing_field_rejected (h : Host) (req : SubmitReq) (o : Oracle) (w : World) :
  absent (fullName req) \/ absent (reqEmail req) \/ absent (projectTitle req)
  \/ absent (projectDescription req) \/ presentationFile req = None ->
  run (post_submissions h req o) w = (Some (json 400 false msg_missing), w).
Proof.
  intros H. apply missing_required_true in H.
  apply run_eq. now apply post_submissions_missing.
Qed.

Lemma missing_field_rejected_witness :
  presentationFile no_file_req = None
  /\ run (post_submissions sample_host no_file_req all_fine) sample_world
     = (Some (json 400 false msg_missing), sample_world).
Proof.
  split; [reflexivity|].
  apply (missing_field_rejected sample_host no_file_req all_fine sample_world).
  right; right; right; right. reflexivity.
Defined.

(** C4: an intake request with a non-institutional email that passes
    validation, staging and persistence leaves one new row, with the
    identifier the table assigned and status pending, and sends exactly one
    mail, whose body contains the approval link built from that identifier. *)
Theorem pending_submission_notifies_once
    (h : Host) (req : SubmitReq) (o : Oracle) (w : World) :
  missing_required req = false ->
  endsWith (str (reqEmail req)) "@sfsu.edu" = false ->
  staging_succeeds req o w = true ->
  o_db o = DbOk ->
  exists row m,
    w_rows (snd (run (post_submissions h req o) w)) = (w_rows w ++ [row])%list
    /\ id row = o_new_id o
    /\ email (cols row) = str (reqEmail req)
    /\ row_status row = "pending"
    /\ sent_mails (w_log (snd (run (post_submissions h req o) w)))
       = (sent_mails (w_log w) ++ [m])%list
    /\ contains (mail_html m) (approval_link h (id row))
    /\ (exists base, approval_link h (id row) = base ++ "/approve?studentId=" ++ id row).
Proof.
  intros Hv He Hs Hdb.
  destruct (post_submissions_persisted h req o w Hv Hs Hdb)
    as (paths & delta & Hi & Hm & Hrows & Hlog & _).
  destruct (new_columns_fields h req paths) as (Hmail & Hst & _).
  fold institutional_suffix in He. rewrite He in Hlog.
  rewrite run_snd. eexists. eexists.
  split; [exact Hrows|]. split; [reflexivity|]. split; [exact Hmail|].
  split; [unfold row_status; simpl; rewrite Hst; unfold classify; now rewrite He|].
  split.
  - rewrite Hlog, !sent_mails_app, Hm. reflexivity.
  - split; [apply mail_body_contains_link|].
    unfold approval_link. eexists. reflexivity.
Qed.

Lemma pending_submission_notifies_once_witness :
  exists row m,
    w_rows (snd (run (post_submissions sample_host gmail_req all_fine) sample_world))
    = (w_rows sample_world ++ [row])%list
    /\ id row = "7"
    /\ email (cols row) = "x@gmail.com"
    /\ row_status row = "pending"
    /\ sent_mails
         (w_log (snd (run (post_submissions sample_host gmail_req all_fine) sample_world)))
       = (sent_mails (w_log sample_world) ++ [m])%list
    /\ contains (mail_html m) (approval_link sample_host (id row))
    /\ (exists base,
          approval_link sample_host (id row) = base ++ "/approve?studentId=" ++ id row).
Proof.
  apply (pending_submission_notifies_once sample_host gmail_req all_fine sample_world);
    reflexivity.
Defined.

(** C5: an intake request with an institutional email that passes validation,
    staging and persistence leaves one new row with status approved, sends no
    mail, and is answered 200 with the auto-approved message, which differs
    from the pending one; nothing is assumed about the mail transport. *)
Theorem institutional_submission_auto_approved
    (h : Host) (req : SubmitReq) (o : Oracle) (w : World) :
  missing_required req = false ->
  endsWith (str (reqEmail req)) "@sfsu.edu" = true ->
  staging_succeeds req o w = true ->
  o_db o = DbOk ->
  exists row,
    w_rows (snd (run (post_submissions h req o) w)) = (w_rows w ++ [row])%list
    /\ id row = o_new_id o
    /\ email (cols row) = str (reqEmail req)
    /\ row_status row = "approved"
    /\ sent_mails (w_log (snd (run (post_submissions h req o) w)))
       = sent_mails (w_log w)
    /\ fst (run (post_submissions h req o) w) = Some (json 200 true msg_auto_approved)
    /\ msg_auto_approved <> msg_pending.
Proof.
  intros Hv He Hs Hdb.
  destruct (post_submissions_persisted h req o w Hv Hs Hdb)
    as (paths & delta & Hi & Hm & Hrows & Hlog & Hresp).
  destruct (new_columns_fields h req paths) as (Hmail & Hst & _).
  fold institutional_suffix in He. rewrite He in Hlog, Hresp.
  rewrite run_snd. eexists.
  split; [exact Hrows|]. split; [reflexivity|]. split; [exact Hmail|].
  split; [unfold row_status; simpl; rewrite Hst; unfold classify; now rewrite He|].
  split; [|split].
  - rewrite Hlog, !sent_mails_app, Hm. simpl. now rewrite app_nil_r.
  - now apply run_fst.
  - discriminate.
Qed.

Lemma institutional_submission_auto_approved_witness :
  exists row,
    w_rows (snd (run (post_submissions sample_host sfsu_req mail_down) sample_world))
    = (w_rows sample_world ++ [row])%list
    /\ id row = "7"
    /\ email (cols row) = "x@sfsu.edu"
    /\ row_status row = "approved"
    /\ sent_mails
         (w_log (snd (run (post_submissions sample_host sfsu_req mail_down) sample_world)))
       = sent_mails (w_log sample_world)
    /\ fst (run (post_submissions sample_host sfsu_req mail_down) sample_world)
       = Some (json 200 true msg_auto_approved)
    /\ msg_auto_approved <> msg_pending.
Proof.
  apply (institutional_submission_auto_approved sample_host sfsu_req mail_down sample_world);
    reflexivity.
Defined.

(** C1, as the handler behaves: when the record of a non-institutional
    submission has been persisted and the mail transport then fails, the row
    stays in the table as it was inserted, with status pending (nothing is
    rolled back or altered), the dispatcher has been called once, and the
    caller is answered 500 with the submission-failed message. *)
Theorem dispatch_failure_keeps_record
    (h : Host) (req : SubmitReq) (o : Oracle) (w : World) :
  missing_required req = false ->
  endsWith (str (reqEmail req)) "@sfsu.edu" = false ->
  staging_succeeds req o w = true ->
  o_db o = DbOk ->
  o_mail_ok o = false ->
  exists row m,
    w_rows (snd (run (post_submissions h req o) w)) = (w_rows w ++ [row])%list
    /\ id row = o_new_id o
    /\ email (cols row) = str (reqEmail req)
    /\ row_status row = "pending"
    /\ sent_mails (w_log (snd (run (post_submissions h req o) w)))
       = (sent_mails (w_log w) ++ [m])%list
    /\ fst (run (post_submissions h req o) w) = Some (json 500 false msg_submit_failed).
Proof.
  intros Hv He Hs Hdb Hmail.
  destruct (post_submissions_persisted h req o w Hv Hs Hdb)
    as (paths & delta & Hi & Hm & Hrows & Hlog & Hresp).
  destruct (new_columns_fields h req paths) as (Hem & Hst & _).
  fold institutional_suffix in He. rewrite He in Hlog, Hresp. rewrite Hmail in Hresp.
  rewrite run_snd. eexists. eexists.
  split; [exact Hrows|]. split; [reflexivity|]. split; [exact Hem|].
  split; [unfold row_status; simpl; rewrite Hst; unfold classify; now rewrite He|].
  split.
  - rewrite Hlog, !sent_mails_app, Hm. reflexivity.
  - now apply run_fst.
Qed.

Lemma dispatch_failure_keeps_record_witness :
  exists row m,
    w_rows (snd (run (post_submissions sample_host gmail_req mail_down) empty_world))
    = (w_rows empty_world ++ [row])%list
    /\ id row = "7"
    /\ email (cols row) = "x@gmail.com"
    /\ row_status row = "pending"
    /\ sent_mails
         (w_log (snd (run (post_submissions sample_host gmail_req mail_down) empty_world)))
       = (sent_mails (w_log empty_world) ++ [m])%list
    /\ fst (run (post_submissions sample_host gmail_req mail_down) empty_world)
       = Some (json 500 false msg_submit_failed).
Proof.
  apply (dispatch_failure_keeps_record sample_host gmail_req mail_down empty_world);
    reflexivity.
Defined.

(** C1, as stated, fails: for the non-institutional address [x@gmail.com],
    with the row persisted as pending and the mail transport failing, the
    answer is not the 200 pending-review response but a 500. *)
Lemma dispatch_failure_response_counterexample :
  endsWith "x@gmail.com" "@sfsu.edu" = false
  /\ o_mail_ok mail_down = false
  /\ map row_status
       (w_rows (snd (run (post_submissions sample_host gmail_req mail_down) empty_world)))
     = ["pending"]
  /\ fst (run (post_submissions sample_host gmail_req mail_down) empty_world)
     = Some (json 500 false "Failed to submit presentation")
  /\ fst (run (post_submissions sample_host gmail_req mail_down) empty_world)
     <> Some (json 200 true msg_pending).
Proof. repeat split; try reflexivity. vm_compute. discriminate. Qed.

(** ** Approval *)

(** C2, as the handler behaves: for a non-empty identifier that no stored
    submission has, the approval handler always answers, creates no row and
    alters none; the answer is the 200 success message when the update call
    comes back without an error, and a 500 only when the store itself fails. *)
Theorem approve_unknown_id (sid : string) (o : Oracle) (w : World) :
  sid <> EmptyString ->
  (forall r, In r (w_rows w) -> id r <> sid) ->
  fst (run (post_approve (Some sid) o) w)
  = Some match o_db o with
         | DbOk => json 200 true msg_approved
         | _ => json 500 false msg_approve_failed
         end
  /\ w_rows (snd (run (post_approve (Some sid) o) w)) = w_rows w
  /\ w_files (snd (run (post_approve (Some sid) o) w)) = w_files w.
Proof.
  intros Hs Hid. unfold run. rewrite (post_approve_run sid o w Hs).
  destruct (o_db o); simpl; repeat split.
  now apply update_where_id_absent.
Qed.

Lemma approve_unknown_id_witness :
  fst (run (post_approve (Some "99") all_fine) sample_world)
  = Some (json 200 true msg_approved)
  /\ w_rows (snd (run (post_approve (Some "99") all_fine) sample_world))
     = w_rows sample_world
  /\ w_files (snd (run (post_approve (Some "99") all_fine) sample_world))
     = w_files sample_world.
Proof.
  apply (approve_unknown_id "99" all_fine sample_world).
  - discriminate.
  - simpl. intros r [<-|[<-|[<-|[]]]]; discriminate.
Defined.

(** C2, as stated, fails: no stored submission has the identifier [99], the
    store answers the update without an error, and the caller is told the
    submission was approved. *)
Lemma approve_unknown_id_counterexample :
  (forall r, In r (w_rows sample_world) -> id r <> "99")
  /\ fst (run (post_approve (Some "99") all_fine) sample_world)
     = Some (json 200 true "Submission approved successfully")
  /\ w_rows (snd (run (post_approve (Some "99") all_fine) sample_world))
     = w_rows sample_world.
Proof.
  split; [|split; reflexivity].
  simpl. intros r [<-|[<-|[<-|[]]]]; discriminate.
Qed.

(** C8: with the store answering, approving the identifier of a pending row
    turns that row, in place, into the same row with status approved, leaves
    the rows with other identifiers as they were and answers 200; approving
    the same identifier again answers the same and changes neither the table
    nor the files. *)
Theorem approve_idempotent
    (sid : string) (o1 o2 : Oracle) (w : World) (k : nat) (r : Row) :
  sid <> EmptyString ->
  nth_error (w_rows w) k = Some r ->
  id r = sid ->
  row_status r = "pending" ->
  o_db o1 = DbOk ->
  o_db o2 = DbOk ->
  fst (run (post_approve (Some sid) o1) w) = Some (json 200 true msg_approved)
  /\ nth_error (w_rows (snd (run (post_approve (Some sid) o1) w))) k
     = Some (set_row_status "approved" r)
  /\ (forall k' r', nth_error (w_rows w) k' = Some r' -> id r' <> sid ->
        nth_error (w_rows (snd (run (post_approve (Some sid) o1) w))) k' = Some r')
  /\ List.length (w_rows (snd (run (post_approve (Some sid) o1) w)))
     = List.length (w_rows w)
  /\ fst (run (post_approve (Some sid) o2) (snd (run (post_approve (Some sid) o1) w)))
     = fst (run (post_approve (Some sid) o1) w)
  /\ w_rows (snd (run (post_approve (Some sid) o2)
                    (snd (run (post_approve (Some sid) o1) w))))
     = w_rows (snd (run (post_approve (Some sid) o1) w))
  /\ w_files (snd (run (post_approve (Some sid) o2)
                     (snd (run (post_approve (Some sid) o1) w))))
     = w_files w.
Proof.
  intros Hs Hk Hid Hst H1 H2. unfold run.
  rewrite (post_approve_run sid o1 w Hs), H1. simpl.
  rewrite (post_approve_run sid o2 _ Hs), H2. simpl.
  split; [reflexivity|]. split; [|split; [|split; [|split; [|split]]]].
  - rewrite (update_where_id_nth _ _ _ _ _ Hk).
    apply String.eqb_eq in Hid. now rewrite Hid.
  - intros k' r' Hk' Hne. rewrite (update_where_id_nth _ _ _ _ _ Hk').
    apply String.eqb_neq in Hne. now rewrite Hne.
  - unfold update_where_id. apply length_map.
  - reflexivity.
  - apply update_where_id_idem.
  - reflexivity.
Qed.

Lemma approve_idempotent_witness :
  fst (run (post_approve (Some "2") all_fine) sample_world)
  = Some (json 200 true msg_approved)
  /\ nth_error (w_rows (snd (run (post_approve (Some "2") all_fine) sample_world))) 1
     = Some (set_row_status "approved" (sample_row "2" 20 "b@gmail.com" "pending"))
  /\ (forall k' r', nth_error (w_rows sample_world) k' = Some r' -> id r' <> "2" ->
        nth_error (w_rows (snd (run (post_approve (Some "2") all_fine) sample_world))) k'
        = Some r')
  /\ List.length (w_rows (snd (run (post_approve (Some "2") all_fine) sample_world)))
     = List.length (w_rows sample_world)
  /\ fst (run (post_approve (Some "2") all_fine)
            (snd (run (post_approve (Some "2") all_fine) sample_world)))
     = fst (run (post_approve (Some "2") all_fine) sample_world)
  /\ w_rows (snd (run (post_approve (Some "2") all_fine)
                    (snd (run (post_approve (Some "2") all_fine) sample_world))))
     = w_rows (snd (run (post_approve (Some "2") all_fine) sample_world))
  /\ w_files (snd (run (post_approve (Some "2") all_fine)
                     (snd (run (post_approve (Some "2") all_fine) sample_world))))
     = w_files sample_world.
Proof.
  apply (approve_idempotent "2" all_fine all_fine sample_world 1
           (sample_row "2" 20 "b@gmail.com" "pending"));
    first [reflexivity | discriminate].
Defined.

(** ** Listing *)

(** C9: a listing request whose status parameter is absent or empty is
    answered 400 and nothing is queried; for any other value, when the store
    answers the query, the response is 200 and carries exactly the stored rows
    whose status equals the value, each as often as stored, newest first. *)
Theorem get_submissions_by_status (statusParam : option string) (o : Oracle) (w : World) :
  (absent statusParam ->
   run (get_submissions statusParam o) w
   = (Some (json 400 false msg_status_required), w))
  /\ (forall s, statusParam = Some s -> s <> EmptyString -> o_db o = DbOk ->
      exists data,
        fst (run (get_submissions statusParam o) w)
        = Some {| code := 200; body := Rows data |}
        /\ Permutation data (filter (status_is s) (w_rows w))
        /\ (forall r, In r data <-> In r (w_rows w) /\ row_status r = s)
        /\ newest_first data
        /\ w_rows (snd (run (get_submissions statusParam o) w)) = w_rows w).
Proof.
  split.
  - intros H. apply absent_truthy in H. apply run_eq.
    now apply get_submissions_missing.
  - intros s -> Hs Hdb. unfold run. rewrite (get_submissions_run s o w Hs), Hdb.
    simpl. eexists. split; [reflexivity|].
    split; [apply order_desc_perm|].
    split; [apply order_desc_filter_In|].
    split; [apply order_desc_sorted | reflexivity].
Qed.

Lemma get_submissions_by_status_witness :
  run (get_submissions None all_fine) sample_world
  = (Some (json 400 false msg_status_required), sample_world)
  /\ exists data,
       fst (run (get_submissions (Some "approved") all_fine) sample_world)
       = Some {| code := 200; body := Rows data |}
       /\ Permutation data (filter (status_is "approved") (w_rows sample_world))
       /\ (forall r, In r data <-> In r (w_rows sample_world) /\ row_status r = "approved")
       /\ newest_first data
       /\ w_rows (snd (run (get_submissions (Some "approved") all_fine) sample_world))
          = w_rows sample_world.
Proof.
  split.
  - apply (proj1 (get_submissions_by_status None all_fine sample_world)).
    left. reflexivity.
  - apply (proj2 (get_submissions_by_status (Some "approved") all_fine sample_world)
             "approved"); first [reflexivity | discriminate].
Defined.

(** C10: a non-empty status value, whatever it is, is never answered 400: the
    handler makes one query, with the value exactly as given, and when the
    store answers it the response is 200 with the rows whose status equals
    the value, possibly none; a 400 is answered exactly when the parameter is
    absent or empty. *)
Theorem get_submissions_any_status (s : string) (o : Oracle) (w : World) :
  s <> EmptyString ->
  w_log (snd (run (get_submissions (Some s) o) w)) = (w_log w ++ [EvSelect s])%list
  /\ (exists resp, fst (run (get_submissions (Some s) o) w) = Some resp
                   /\ code resp <> 400%Z)
  /\ (o_db o = DbOk ->
      fst (run (get_submissions (Some s) o) w)
      = Some {| code := 200;
                body := Rows (order_desc (filter (status_is s) (w_rows w))) |}
      /\ forall r, In r (order_desc (filter (status_is s) (w_rows w)))
                   <-> In r (w_rows w) /\ row_status r = s)
  /\ (forall statusParam o' w' resp,
        fst (run (get_submissions statusParam o') w') = Some resp ->
        (code resp = 400%Z <-> absent statusParam)).
Proof.
  intros Hs. unfold run at 1 2 3. rewrite (get_submissions_run s o w Hs). simpl.
  split; [reflexivity|]. split; [|split].
  - eexists. split; [reflexivity|]. destruct (o_db o); simpl; discriminate.
  - intros ->. split; [reflexivity | apply order_desc_filter_In].
  - intros sp o' w' resp. rewrite absent_truthy. unfold run.
    destruct (truthy sp) eqn:Ht.
    + destruct sp as [s'|]; [|discriminate]. simpl in Ht.
      assert (Hs' : s' <> EmptyString).
      { intros ->. discriminate. }
      rewrite (get_submissions_run s' o' w' Hs'). simpl.
      intros [= <-]. destruct (o_db o'); simpl; split; discriminate.
    + rewrite (get_submissions_missing sp o' w' Ht). simpl.
      intros [= <-]. simpl. split; reflexivity.
Qed.

Lemma get_submissions_any_status_witness :
  w_log (snd (run (get_submissions (Some "rejected") all_fine) sample_world))
  = (w_log sample_world ++ [EvSelect "rejected"])%list
  /\ fst (run (get_submissions (Some "rejected") all_fine) sample_world)
     = Some {| code := 200; body := Rows [] |}
  /\ fst (run (get_submissions (Some "pending") all_fine) sample_world)
     = Some {| code := 200; body := Rows [sample_row "2" 20 "b@gmail.com" "pending"] |}.
Proof.
  split; [|split].
  - apply (get_submissions_any_status "rejected" all_fine sample_world). discriminate.
  - apply (get_submissions_any_status "rejected" all_fine sample_world);
      first [reflexivity | discriminate].
  - apply (get_submissions_any_status "pending" all_fine sample_world);
      first [reflexivity | discriminate].
Defined.

(** ** The status over any run of requests *)

Lemma set_approved_twice (r : Row) :
  set_row_status "approved" (set_row_status "approved" r) = set_row_status "approved" r.
Proof. reflexivity. Qed.

Lemma moved_forward_refl (r : Row) : moved_forward r r.
Proof. now left. Qed.

Lemma moved_forward_trans (r1 r2 r3 : Row) :
  moved_forward r1 r2 -> moved_forward r2 r3 -> moved_forward r1 r3.
Proof.
  unfold moved_forward. intros [->| ->] [->| ->]; auto.
Qed.

Lemma moved_forward_fields (r r' : Row) :
  moved_forward r r' ->
  id r' = id r /\ created_at r' = created_at r
  /\ email (cols r') = email (cols r)
  /\ (row_status r' = row_status r \/ row_status r' = "approved")
  /\ (row_status r = "approved" -> r' = r).
Proof.
  intros [->| ->]; repeat split; auto.
  intros H. rewrite <- H. apply set_row_status_same.
Qed.

Lemma moved_forward_classified (r r' : Row) :
  moved_forward r r' -> classified_or_approved r -> classified_or_approved r'.
Proof.
  unfold classified_or_approved. intros [->| ->] H; [exact H|]. now right.
Qed.

Lemma Forall2_moved_forward_refl (rows : list Row) : Forall2 moved_forward rows rows.
Proof. induction rows; constructor; auto using moved_forward_refl. Qed.

Lemma Forall2_moved_forward_trans (l1 l2 l3 : list Row) :
  Forall2 moved_forward l1 l2 -> Forall2 moved_forward l2 l3 ->
  Forall2 moved_forward l1 l3.
Proof.
  intros H. revert l3. induction H as [|a b l1 l2 Hab _ IH]; intros l3 H23.
  - inversion H23. constructor.
  - inversion H23 as [|b' c l2' l3' Hbc Ht]; subst. constructor.
    + eapply moved_forward_trans; eassumption.
    + now apply IH.
Qed.

Lemma Forall2_moved_forward_classified (l l' : list Row) :
  Forall2 moved_forward l l' ->
  Forall classified_or_approved l -> Forall classified_or_approved l'.
Proof.
  induction 1 as [|a b l l' Hab _ IH]; intros H; [constructor|].
  inversion H; subst. constructor.
  - eapply moved_forward_classified; eassumption.
  - now apply IH.
Qed.

Lemma rows_forward_refl (rows : list Row) : rows_forward rows rows.
Proof.
  exists rows, []. rewrite app_nil_r.
  split; [reflexivity|]. split; [apply Forall2_moved_forward_refl | constructor].
Qed.

Lemma rows_forward_trans (l1 l2 l3 : list Row) :
  rows_forward l1 l2 -> rows_forward l2 l3 -> rows_forward l1 l3.
Proof.
  intros (k1 & c1 & -> & Hk1 & Hc1) (k2 & c2 & -> & Hk2 & Hc2).
  apply Forall2_app_inv_l in Hk2. destruct Hk2 as (k2a & k2b & Ha & Hb & ->).
  exists k2a, (k2b ++ c2)%list. rewrite app_assoc.
  split; [reflexivity|]. split.
  - eapply Forall2_moved_forward_trans; eassumption.
  - apply Forall_app. split; [|exact Hc2].
    eapply Forall2_moved_forward_classified; eassumption.
Qed.

Lemma rows_forward_update (sid : string) (rows : list Row) :
  rows_forward rows (update_where_id sid "approved" rows).
Proof.
  exists (update_where_id sid "approved" rows), []. rewrite app_nil_r.
  split; [reflexivity|]. split; [|constructor].
  unfold update_where_id. induction rows as [|r rows IH]; simpl; constructor.
  - destruct (String.eqb (id r) sid); [now right | now left].
  - exact IH.
Qed.

Lemma rows_forward_nth (rows rows' : list Row) (k : nat) (r : Row) :
  rows_forward rows rows' ->
  nth_error rows k = Some r ->
  exists r', nth_error rows' k = Some r' /\ moved_forward r r'.
Proof.
  intros (kept & created & -> & Hk & _). revert k.
  induction Hk as [|a b l l' Hab _ IH]; intros [|k] H; simpl in *; try discriminate.
  - injection H as ->. eauto.
  - now apply IH.
Qed.

(** One request: what it logs and what it does to the table. *)
Lemma step_effect (h : Host) (rq : Request) (o : Oracle) (w : World) :
  (exists delta,
     w_log (snd (handle h rq o w)) = (w_log w ++ delta)%list
     /\ Forall status_write_ok delta)
  /\ rows_forward (w_rows w) (w_rows (snd (handle h rq o w))).
Proof.
  destruct rq as [req|sp| |sp]; simpl.
  - destruct (post_submissions_effect h req o w) as (delta & Hlog & Hok & Hrows).
    split; [eauto|].
    destruct Hrows as [->|(row & -> & Hst)]; [apply rows_forward_refl|].
    exists (w_rows w), [row].
    split; [reflexivity|]. split; [apply Forall2_moved_forward_refl|].
    constructor; [now left | constructor].
  - destruct (truthy sp) eqn:Ht.
    + destruct sp as [s|]; [|discriminate].
      assert (Hs : s <> EmptyString) by (intros ->; discriminate).
      rewrite (get_submissions_run s o w Hs). simpl.
      split; [|apply rows_forward_refl].
      eexists. split; [reflexivity | repeat constructor].
    + rewrite (get_submissions_missing sp o w Ht). simpl.
      split; [|apply rows_forward_refl].
      exists []. rewrite app_nil_r. auto.
  - rewrite get_calendar_run. simpl.
    split; [|apply rows_forward_refl].
    eexists. split; [reflexivity | repeat constructor].
  - destruct (truthy sp) eqn:Ht.
    + destruct sp as [s|]; [|discriminate].
      assert (Hs : s <> EmptyString) by (intros ->; discriminate).
      rewrite (post_approve_run s o w Hs).
      destruct (o_db o); simpl;
        (split; [eexists; split; [reflexivity | repeat constructor]|]);
        first [apply rows_forward_update | apply rows_forward_refl].
    + rewrite (post_approve_missing sp o w Ht). simpl.
      split; [|apply rows_forward_refl].
      exists []. rewrite app_nil_r. auto.
Qed.

(** C7: over any sequence of requests, the only status values handed to the
    table are the classification of the email in an insert and approved in an
    update; every row stays at its position with its identifier, timestamp and
    email, its status either kept or set to approved, and a row that is
    approved is never changed again; the rows created on the way carry the
    classification of their email or approved. *)
Theorem status_only_moves_forward (h : Host) (w w' : World) :
  reachable h w w' ->
  (exists delta,
     w_log w' = (w_log w ++ delta)%list /\ Forall status_write_ok delta)
  /\ rows_forward (w_rows w) (w_rows w')
  /\ (forall k r, nth_error (w_rows w) k = Some r ->
        exists r',
          nth_error (w_rows w') k = Some r'
          /\ id r' = id r
          /\ created_at r' = created_at r
          /\ email (cols r') = email (cols r)
          /\ (row_status r' = row_status r \/ row_status r' = "approved")
          /\ (row_status r = "approved" -> r' = r)).
Proof.
  intros Hrun.
  assert (Hinv : (exists delta,
                    w_log w' = (w_log w ++ delta)%list /\ Forall status_write_ok delta)
                 /\ rows_forward (w_rows w) (w_rows w')).
  { induction Hrun as [|w1 w2 Hstep _ IH].
    - split; [|apply rows_forward_refl]. exists []. rewrite app_nil_r. auto.
    - destruct IH as ((d1 & Hl1 & Hok1) & Hr1).
      destruct Hstep as [rq o w1].
      destruct (step_effect h rq o w1) as ((d2 & Hl2 & Hok2) & Hr2).
      split.
      + exists (d1 ++ d2)%list. rewrite Hl2, Hl1, app_assoc.
        split; [reflexivity | now apply Forall_app].
      + eapply rows_forward_trans; eassumption. }
  destruct Hinv as (Hlog & Hrows). split; [exact Hlog|]. split; [exact Hrows|].
  intros k r Hk.
  destruct (rows_forward_nth _ _ _ _ Hrows Hk) as (r' & Hk' & Hmf).
  exists r'. split; [exact Hk'|]. now apply moved_forward_fields.
Qed.

Lemma status_only_moves_forward_witness :
  reachable sample_host sample_world sample_run_end
  /\ (exists delta,
        w_log sample_run_end = (w_log sample_world ++ delta)%list
        /\ Forall status_write_ok delta)
  /\ rows_forward (w_rows sample_world) (w_rows sample_run_end)
  /\ (forall k r, nth_error (w_rows sample_world) k = Some r ->
        exists r',
          nth_error (w_rows sample_run_end) k = Some r'
          /\ id r' = id r
          /\ created_at r' = created_at r
          /\ email (cols r') = email (cols r)
          /\ (row_status r' = row_status r \/ row_status r' = "approved")
          /\ (row_status r = "approved" -> r' = r)).
Proof.
  assert (Hrun : reachable sample_host sample_world sample_run_end).
  { unfold sample_run_end, reachable.
    eapply Relation_Operators.rtn1_trans; [apply step_handle|].
    eapply Relation_Operators.rtn1_trans; [apply step_handle|].
    apply Relation_Operators.rtn1_refl. }
  split; [exact Hrun|].
  apply (status_only_moves_forward sample_host sample_world sample_run_end Hrun).
Defined.

(* ================================================================== *)
(** * Further properties of the handlers *)

(** ** The classifier looks at the tail only *)

Lemma substring_skip (p e : string) (k m : nat) :
  substring (String.length p + k) m (p ++ e) = substring k m e.
Proof. induction p as [|c p IH]; simpl; [reflexivity | exact IH]. Qed.

Lemma endsWith_append (p e t : string) :
  String.length t <= String.length e -> endsWith (p ++ e) t = endsWith e t.
Proof.
  intros H. unfold endsWith. rewrite length_append.
  destruct (Nat.ltb_spec (String.length p + String.length e) (String.length t)); [lia|].
  destruct (Nat.ltb_spec (String.length e) (String.length t)); [lia|].
  replace (String.length p + String.length e - String.length t)
    with (String.length p + (String.length e - String.length t)) by lia.
  now rewrite substring_skip.
Qed.

(** X1: the classification of an address is decided by its last nine
    characters: an address shorter than the suffix is pending, and putting
    anything in front of an address of nine characters or more does not
    change its classification. *)
Theorem classify_depends_on_tail :
  (forall e, String.length e < 9 -> classify e = "pending")
  /\ (forall p e, 9 <= String.length e -> classify (p ++ e) = classify e).
Proof.
  split.
  - intros e H. unfold classify, endsWith. simpl String.length.
    destruct (Nat.ltb_spec (String.length e) 9); [reflexivity | lia].
  - intros p e H. unfold classify. now rewrite endsWith_append.
Qed.

Lemma classify_depends_on_tail_witness :
  classify "@sfsu.ed" = "pending"
  /\ classify ("someone@gmail.com " ++ "x@sfsu.edu") = classify "x@sfsu.edu".
Proof.
  split.
  - apply (proj1 classify_depends_on_tail "@sfsu.ed"). simpl. lia.
  - apply (proj2 classify_depends_on_tail "someone@gmail.com " "x@sfsu.edu"). simpl. lia.
Defined.

(** ** Names of the saved files *)

Lemma uint_digits (d : Decimal.uint) : all_digits (NilEmpty.string_of_uint d) = true.
Proof. induction d; simpl; auto. Qed.

Lemma number_to_string_digits (n : Z) :
  (0 <= n)%Z -> all_digits (number_to_string n) = true.
Proof.
  intros H. unfold number_to_string. destruct n as [|p|p]; [reflexivity| |lia].
  simpl. unfold NilZero.string_of_uint.
  destruct (Pos.to_uint p); try reflexivity; apply uint_digits.
Qed.

Lemma number_to_string_inj (a b : Z) :
  number_to_string a = number_to_string b -> a = b.
Proof.
  unfold number_to_string. intros H.
  assert (Hnn : forall z, Z.to_int z <> Decimal.Pos Decimal.Nil
                          /\ Z.to_int z <> Decimal.Neg Decimal.Nil).
  { intros [|p|p]; simpl; split; try discriminate;
      intros [= E]; now apply (DecimalPos.Unsigned.to_uint_nonnil p). }
  apply (f_equal NilZero.int_of_string) in H.
  rewrite !NilZero.isi in H by apply Hnn.
  injection H as H. apply (f_equal Z.of_int) in H.
  now rewrite !DecimalZ.of_to in H.
Qed.

Lemma digits_then_dash (s1 : string) :
  forall s2 r1 r2,
    all_digits s1 = true -> all_digits s2 = true ->
    s1 ++ "-" ++ r1 = s2 ++ "-" ++ r2 -> s1 = s2 /\ r1 = r2.
Proof.
  induction s1 as [|c s1 IH]; intros [|c2 s2] r1 r2 H1 H2 E; simpl in *.
  - injection E as E. auto.
  - injection E as <- _. discriminate.
  - injection E as -> _. discriminate.
  - injection E as <- E.
    apply andb_true_iff in H1, H2.
    destruct (IH s2 r1 r2 (proj2 H1) (proj2 H2) E) as [-> ->]. auto.
Qed.

(** X2: the name a part is saved under determines both the clock reading and
    the original file name: two parts get the same name only when the clock
    read the same millisecond and their original names are equal. *)
Theorem staged_name_injective (a b : Z) (f g : File) :
  (0 <= a)%Z -> (0 <= b)%Z ->
  staged_name a f = staged_name b g ->
  a = b /\ originalname f = originalname g.
Proof.
  intros Ha Hb E. unfold staged_name in E.
  destruct (digits_then_dash _ _ _ _ (number_to_string_digits a Ha)
              (number_to_string_digits b Hb) E) as [En Eo].
  split; [now apply number_to_string_inj | exact Eo].
Qed.

Lemma staged_name_injective_witness :
  staged_name 1700000000000 sample_file = staged_name 1700000000000 paper_file
  /\ 1700000000000%Z = 1700000000000%Z
  /\ originalname sample_file = originalname paper_file.
Proof.
  split; [reflexivity|].
  apply (staged_name_injective 1700000000000 1700000000000 sample_file paper_file);
    first [lia | reflexivity].
Defined.

(** ** Intake: saving the files *)

Lemma written_app (l1 l2 : list Event) :
  written (l1 ++ l2) = (written l1 ++ written l2)%list.
Proof. apply flat_map_app. Qed.

Lemma made_dirs_app (l1 l2 : list Event) :
  made_dirs (l1 ++ l2) = (made_dirs l1 ++ made_dirs l2)%list.
Proof. apply flat_map_app. Qed.

Lemma written_write_events (l : list (string * string)) :
  written (map write_event l) = l.
Proof. induction l as [|[p d] l IH]; simpl; [reflexivity | now rewrite IH]. Qed.

Lemma made_dirs_write_events (l : list (string * string)) :
  made_dirs (map write_event l) = [].
Proof. induction l as [|[p d] l IH]; simpl; [reflexivity | exact IH]. Qed.

Lemma inserted_write_events (l : list (string * string)) :
  inserted (map write_event l) = [].
Proof. induction l as [|[p d] l IH]; simpl; [reflexivity | exact IH]. Qed.

Lemma sent_mails_write_events (l : list (string * string)) :
  sent_mails (map write_event l) = [].
Proof. induction l as [|[p d] l IH]; simpl; [reflexivity | exact IH]. Qed.

Ltac unfold_staging :=
  unfold save_files, staged_world, staged_paths, staged_parts, part, staged_path,
    staged_name, upload_dir, write_event, staging_succeeds in *;
  unfold_effects.

(** When every write goes through, [save_files] yields the three paths and
    leaves the staged world. *)
Lemma save_files_staged (h : Host) (req : SubmitReq) (o : Oracle) (w : World) (f : File) :
  presentationFile req = Some f ->
  staging_succeeds req o w = true ->
  save_files h req o w = (Returned (staged_paths h req o f), staged_world h req o w).
Proof.
  intros Hp Hs. destruct w as [rows files dir lg]. unfold_staging.
  rewrite Hp in *. simpl in *.
  destruct dir, (o_mkdir_ok o), (o_write_presentation_ok o), (paperFile req),
    (o_write_paper_ok o), (logoFile req), (o_write_logo_ok o);
    simpl in *; try discriminate; rewrite <- ?app_assoc; reflexivity.
Qed.

Lemma save_files_fails (h : Host) (req : SubmitReq) (o : Oracle) (w : World) :
  staging_succeeds req o w = false ->
  fst (save_files h req o w) = Thrown.
Proof.
  intros Hs. unfold_staging.
  destruct (w_upload_dir w), (o_mkdir_ok o), (presentationFile req),
    (o_write_presentation_ok o), (paperFile req), (o_write_paper_ok o),
    (logoFile req), (o_write_logo_ok o); simpl in *; try discriminate; reflexivity.
Qed.

(** The directory is created at most once, when it is missing, and it is
    never removed. *)
Lemma save_files_dirs (h : Host) (req : SubmitReq) (o : Oracle) (w : World) :
  exists delta,
    w_log (snd (save_files h req o w)) = (w_log w ++ delta)%list
    /\ made_dirs delta = (if w_upload_dir w then [] else [upload_dir h])
    /\ (w_upload_dir w = true -> w_upload_dir (snd (save_files h req o w)) = true).
Proof.
  destruct w as [rows files dir lg]. unfold save_files, upload_dir. unfold_effects. simpl.
  destruct dir, (o_mkdir_ok o), (presentationFile req),
    (o_write_presentation_ok o), (paperFile req), (o_write_paper_ok o),
    (logoFile req), (o_write_logo_ok o); simpl;
    rewrite <- ?app_assoc;
    (eexists; split; [first [reflexivity | symmetry; apply app_nil_r]|]);
    split; first [reflexivity | discriminate | auto].
Qed.

(** After the files, the handler only talks to the table and to the mail
    transport. *)
Lemma post_submissions_tail (h : Host) (req : SubmitReq) (o : Oracle) (w : World) :
  missing_required req = false ->
  exists tail,
    w_log (snd (post_submissions h req o w))
    = (w_log (snd (save_files h req o w)) ++ tail)%list
    /\ written tail = []
    /\ made_dirs tail = []
    /\ w_files (snd (post_submissions h req o w)) = w_files (snd (save_files h req o w))
    /\ w_upload_dir (snd (post_submissions h req o w))
       = w_upload_dir (snd (save_files h req o w)).
Proof.
  intros Hv. unfold post_submissions. rewrite Hv. unfold try_catch, bind.
  destruct (save_files h req o w) as [[paths|] w1]; simpl.
  - unfold_effects.
    destruct (o_db o); simpl;
      [destruct (endsWith (str (reqEmail req)) institutional_suffix); simpl;
       [|destruct (o_mail_ok o); simpl]| |];
      rewrite <- ?app_assoc; eexists; repeat split; reflexivity.
  - unfold ret. simpl. exists []. rewrite app_nil_r. auto.
Qed.

(** A validated request whose parts were all saved: the answer and the world
    for every outcome of the insert and of the mail. *)
Lemma post_submissions_staged (h : Host) (req : SubmitReq) (o : Oracle) (w : World)
    (f : File) :
  missing_required req = false ->
  presentationFile req = Some f ->
  staging_succeeds req o w = true ->
  post_submissions h req o w
  = match o_db o with
    | DbOk =>
        (Returned
           (if endsWith (str (reqEmail req)) institutional_suffix
            then json 200 true msg_auto_approved
            else if o_mail_ok o then json 200 true msg_pending
                 else json 500 false msg_submit_failed),
         {| w_rows := w_rows w
                      ++ [{| id := o_new_id o; created_at := o_created_at o;
                             cols := new_columns h req (staged_paths h req o f) |}];
            w_files := w_files (staged_world h req o w);
            w_upload_dir := true;
            w_log := w_log (staged_world h req o w)
                     ++ EvInsert (new_columns h req (staged_paths h req o f))
                     :: (if endsWith (str (reqEmail req)) institutional_suffix then []
                         else [EvSendMail (approval_mail h req (o_new_id o))]) |})
    | _ =>
        (Returned (json 500 false msg_submit_failed),
         {| w_rows := w_rows w;
            w_files := w_files (staged_world h req o w);
            w_upload_dir := true;
            w_log := w_log (staged_world h req o w)
                     ++ [EvInsert (new_columns h req (staged_paths h req o f))] |})
    end.
Proof.
  intros Hv Hp Hs. unfold post_submissions. rewrite Hv. unfold try_catch, bind.
  rewrite (save_files_staged h req o w f Hp Hs). unfold approval_mail. unfold_effects.
  destruct (o_db o); simpl;
    [destruct (endsWith (str (reqEmail req)) institutional_suffix); simpl;
     [|destruct (o_mail_ok o); simpl]| |];
    rewrite <- ?app_assoc; reflexivity.
Qed.

(** X3: when a validated request cannot be staged (the upload directory
    cannot be created, or a write of one of its parts fails), the caller is
    answered 500, the table is left as it was, no insert is attempted and no
    mail is sent. *)
Theorem staging_failure_aborts (h : Host) (req : SubmitReq) (o : Oracle) (w : World) :
  missing_required req = false ->
  staging_succeeds req o w = false ->
  fst (run (post_submissions h req o) w) = Some (json 500 false msg_submit_failed)
  /\ w_rows (snd (run (post_submissions h req o) w)) = w_rows w
  /\ inserted (w_log (snd (run (post_submissions h req o) w))) = inserted (w_log w)
  /\ sent_mails (w_log (snd (run (post_submissions h req o) w))) = sent_mails (w_log w).
Proof.
  intros Hv Hs.
  pose proof (save_files_fails h req o w Hs) as Hf.
  destruct (save_files_frame h req o w) as (delta & Hlog & Hi & Hm & _ & Hrows).
  unfold run, post_submissions. rewrite Hv. unfold try_catch, bind.
  destruct (save_files h req o w) as [[paths|] w1]; simpl in *; [discriminate|].
  rewrite Hlog, inserted_app, sent_mails_app, Hi, Hm, !app_nil_r. auto.
Qed.

Lemma staging_failure_aborts_witness :
  fst (run (post_submissions sample_host two_part_req paper_write_fails) sample_world)
  = Some (json 500 false msg_submit_failed)
  /\ w_rows (snd (run (post_submissions sample_host two_part_req paper_write_fails)
                    sample_world))
     = w_rows sample_world
  /\ inserted (w_log (snd (run (post_submissions sample_host two_part_req
                                  paper_write_fails) sample_world)))
     = inserted (w_log sample_world)
  /\ sent_mails (w_log (snd (run (post_submissions sample_host two_part_req
                                    paper_write_fails) sample_world)))
     = sent_mails (w_log sample_world).
Proof.
  apply (staging_failure_aborts sample_host two_part_req paper_write_fails sample_world);
    reflexivity.
Defined.

(** X4: a failed write does not undo the writes before it: when the
    presentation was saved and the write of the paper fails, the presentation
    stays in the upload directory although the request is answered 500 and no
    row is created. *)
Theorem failed_write_leaves_earlier_files
    (h : Host) (req : SubmitReq) (o : Oracle) (w : World) (f g : File) :
  missing_required req = false ->
  presentationFile req = Some f ->
  paperFile req = Some g ->
  w_upload_dir w || o_mkdir_ok o = true ->
  o_write_presentation_ok o = true ->
  o_write_paper_ok o = false ->
  w_files (snd (run (post_submissions h req o) w))
  = (staged_path h (o_now_presentation o) f, buffer f) :: w_files w
  /\ w_rows (snd (run (post_submissions h req o) w)) = w_rows w
  /\ fst (run (post_submissions h req o) w) = Some (json 500 false msg_submit_failed).
Proof.
  intros Hv Hp Hg Hd H1 H2. destruct w as [rows files dir lg].
  unfold run, post_submissions. rewrite Hv. unfold_staging.
  rewrite Hp, Hg, H1, H2. simpl in *.
  destruct dir, (o_mkdir_ok o); simpl in *; try discriminate; auto.
Qed.

Lemma failed_write_leaves_earlier_files_witness :
  w_files (snd (run (post_submissions sample_host two_part_req paper_write_fails)
                  sample_world))
  = (staged_path sample_host 1700000000000 sample_file, buffer sample_file)
    :: w_files sample_world
  /\ w_rows (snd (run (post_submissions sample_host two_part_req paper_write_fails)
                    sample_world))
     = w_rows sample_world
  /\ fst (run (post_submissions sample_host two_part_req paper_write_fails) sample_world)
     = Some (json 500 false msg_submit_failed).
Proof.
  apply (failed_write_leaves_earlier_files sample_host two_part_req paper_write_fails
           sample_world sample_file paper_file); reflexivity.
Defined.

(** X5: when the parts were saved and the insert then fails (an error result
    or a rejected call), the caller is answered 500, the table is left as it
    was and no mail is sent; the insert was attempted once, with the status
    the classifier gives the email, and the saved files stay on disk. *)
Theorem insert_failure_aborts (h : Host) (req : SubmitReq) (o : Oracle) (w : World) :
  missing_required req = false ->
  staging_succeeds req o w = true ->
  o_db o <> DbOk ->
  fst (run (post_submissions h req o) w) = Some (json 500 false msg_submit_failed)
  /\ w_rows (snd (run (post_submissions h req o) w)) = w_rows w
  /\ sent_mails (w_log (snd (run (post_submissions h req o) w))) = sent_mails (w_log w)
  /\ (exists c,
        inserted (w_log (snd (run (post_submissions h req o) w)))
        = (inserted (w_log w) ++ [c])%list
        /\ email c = str (reqEmail req)
        /\ status c = classify (str (reqEmail req)))
  /\ w_files (snd (run (post_submissions h req o) w))
     = (rev (staged_parts h req o) ++ w_files w)%list.
Proof.
  intros Hv Hs Hdb.
  destruct (missing_required_false req Hv) as (_ & _ & _ & _ & Hp).
  destruct (presentationFile req) as [f|] eqn:Hf; [clear Hp | congruence].
  unfold run. rewrite (post_submissions_staged h req o w f Hv Hf Hs).
  destruct (new_columns_fields h req (staged_paths h req o f)) as (Hem & Hst & _).
  destruct (o_db o); [congruence| |]; simpl;
    rewrite !sent_mails_app, !inserted_app, sent_mails_write_events,
      inserted_write_events;
    destruct (w_upload_dir w); simpl; rewrite ?app_nil_r;
    repeat split; eauto.
Qed.

Lemma insert_failure_aborts_witness :
  fst (run (post_submissions sample_host gmail_req db_down) sample_world)
  = Some (json 500 false msg_submit_failed)
  /\ w_rows (snd (run (post_submissions sample_host gmail_req db_down) sample_world))
     = w_rows sample_world
  /\ sent_mails (w_log (snd (run (post_submissions sample_host gmail_req db_down)
                               sample_world)))
     = sent_mails (w_log sample_world)
  /\ (exists c,
        inserted (w_log (snd (run (post_submissions sample_host gmail_req db_down)
                                sample_world)))
        = (inserted (w_log sample_world) ++ [c])%list
        /\ email c = str (reqEmail gmail_req)
        /\ status c = classify (str (reqEmail gmail_req)))
  /\ w_files (snd (run (post_submissions sample_host gmail_req db_down) sample_world))
     = (rev (staged_parts sample_host gmail_req db_down) ++ w_files sample_world)%list.
Proof.
  apply (insert_failure_aborts sample_host gmail_req db_down sample_world);
    first [reflexivity | discriminate].
Defined.

(** X6: the answer to a validated intake request, case by case: 500 when
    staging fails or the insert fails; otherwise 200 with the auto-approved
    message for an institutional address, 200 with the pending message for
    another address whose mail was sent, and 500 when that mail fails. *)
Theorem intake_response (h : Host) (req : SubmitReq) (o : Oracle) (w : World) :
  missing_required req = false ->
  fst (run (post_submissions h req o) w)
  = Some (if staging_succeeds req o w then
            match o_db o with
            | DbOk =>
                if endsWith (str (reqEmail req)) "@sfsu.edu"
                then json 200 true msg_auto_approved
                else if o_mail_ok o then json 200 true msg_pending
                     else json 500 false msg_submit_failed
            | _ => json 500 false msg_submit_failed
            end
          else json 500 false msg_submit_failed).
Proof.
  intros Hv. destruct (staging_succeeds req o w) eqn:Hs.
  - destruct (missing_required_false req Hv) as (_ & _ & _ & _ & Hp).
    destruct (presentationFile req) as [f|] eqn:Hf; [clear Hp | congruence].
    unfold run. rewrite (post_submissions_staged h req o w f Hv Hf Hs).
    fold institutional_suffix. destruct (o_db o); reflexivity.
  - pose proof (save_files_fails h req o w Hs) as Hfail.
    unfold run, post_submissions. rewrite Hv. unfold try_catch, bind.
    destruct (save_files h req o w) as [[paths|] w1]; simpl in *;
      [discriminate | reflexivity].
Qed.

Lemma intake_response_witness :
  fst (run (post_submissions sample_host gmail_req all_fine) sample_world)
  = Some (json 200 true msg_pending).
Proof.
  apply (intake_response sample_host gmail_req all_fine sample_world). reflexivity.
Defined.

(** X7: when staging succeeds, every part sent is written exactly once, the
    presentation first, then the paper, then the logo, each with its own
    buffer at the path built from the clock and its original name; these
    files are on disk afterwards whatever the insert and the mail do. *)
Theorem saved_parts_written_once (h : Host) (req : SubmitReq) (o : Oracle) (w : World) :
  missing_required req = false ->
  staging_succeeds req o w = true ->
  written (w_log (snd (run (post_submissions h req o) w)))
  = (written (w_log w) ++ staged_parts h req o)%list
  /\ w_files (snd (run (post_submissions h req o) w))
     = (rev (staged_parts h req o) ++ w_files w)%list.
Proof.
  intros Hv Hs.
  destruct (missing_required_false req Hv) as (_ & _ & _ & _ & Hp).
  destruct (presentationFile req) as [f|] eqn:Hf; [clear Hp | congruence].
  destruct (post_submissions_tail h req o w Hv) as (tail & Hlog & Hw & _ & Hfiles & _).
  rewrite run_snd, Hlog, Hfiles, (save_files_staged h req o w f Hf Hs). simpl.
  split; [|reflexivity].
  rewrite !written_app, Hw, written_write_events.
  destruct (w_upload_dir w); simpl; now rewrite app_nil_r.
Qed.

Lemma saved_parts_written_once_witness :
  written (w_log (snd (run (post_submissions sample_host two_part_req all_fine)
                         sample_world)))
  = (written (w_log sample_world) ++ staged_parts sample_host two_part_req all_fine)%list
  /\ w_files (snd (run (post_submissions sample_host two_part_req all_fine) sample_world))
     = (rev (staged_parts sample_host two_part_req all_fine) ++ w_files sample_world)%list.
Proof.
  apply (saved_parts_written_once sample_host two_part_req all_fine sample_world);
    reflexivity.
Defined.

(** X8: a validated request asks for the upload directory to be created
    exactly when it is missing, and only once; a directory that exists still
    exists afterwards, whatever else fails. *)
Theorem upload_dir_created_when_missing
    (h : Host) (req : SubmitReq) (o : Oracle) (w : World) :
  missing_required req = false ->
  made_dirs (w_log (snd (run (post_submissions h req o) w)))
  = (made_dirs (w_log w) ++ (if w_upload_dir w then [] else [upload_dir h]))%list
  /\ (w_upload_dir w = true ->
      w_upload_dir (snd (run (post_submissions h req o) w)) = true).
Proof.
  intros Hv.
  destruct (post_submissions_tail h req o w Hv) as (tail & Hlog & _ & Hd & _ & Hdir).
  destruct (save_files_dirs h req o w) as (delta & Hlog1 & Hd1 & Hkeep).
  rewrite run_snd, Hlog, Hlog1, Hdir, !made_dirs_app, Hd, Hd1, app_nil_r.
  split; [reflexivity | exact Hkeep].
Qed.

Lemma upload_dir_created_when_missing_witness :
  made_dirs (w_log (snd (run (post_submissions sample_host gmail_req all_fine)
                           empty_world)))
  = (made_dirs (w_log empty_world) ++ [upload_dir sample_host])%list
  /\ (w_upload_dir sample_world = true ->
      w_upload_dir (snd (run (post_submissions sample_host gmail_req all_fine)
                           sample_world)) = true).
Proof.
  split.
  - apply (upload_dir_created_when_missing sample_host gmail_req all_fine empty_world).
    reflexivity.
  - apply (upload_dir_created_when_missing sample_host gmail_req all_fine sample_world).
    reflexivity.
Defined.

(** ** Intake: the stored row and the mail *)

Lemma or_null_absent (v : option string) : or_null v = None <-> absent v.
Proof.
  rewrite absent_truthy. unfold or_null.
  destruct (truthy v) eqn:E; [|tauto].
  destruct v; [split; discriminate | discriminate].
Qed.

(** X9: the row a successful intake stores, at the end of the table: the four
    text fields and the email as sent, the video link null exactly when it
    was not sent or sent empty, the presentation URL made of [/uploads/] and
    the base name of the saved file, and the paper and logo URLs null when
    the part was not sent. *)
Theorem stored_row_fields
    (h : Host) (req : SubmitReq) (o : Oracle) (w : World) (f : File) :
  missing_required req = false ->
  presentationFile req = Some f ->
  staging_succeeds req o w = true ->
  o_db o = DbOk ->
  exists row,
    nth_error (w_rows (snd (run (post_submissions h req o) w))) (List.length (w_rows w))
    = Some row
    /\ id row = o_new_id o
    /\ created_at row = o_created_at o
    /\ full_name (cols row) = str (fullName req)
    /\ email (cols row) = str (reqEmail req)
    /\ project_title (cols row) = str (projectTitle req)
    /\ project_description (cols row) = str (projectDescription req)
    /\ (video_link (cols row) = None <-> absent (videoLink req))
    /\ (forall v, video_link (cols row) = Some v -> videoLink req = Some v)
    /\ presentation_url (cols row)
       = "/uploads/" ++ path_basename h (staged_path h (o_now_presentation o) f)
    /\ (paperFile req = None -> paper_url (cols row) = None)
    /\ (logoFile req = None -> logo_url (cols row) = None)
    /\ (forall g, paperFile req = Some g ->
          staged_path h (o_now_paper o) g <> EmptyString ->
          paper_url (cols row)
          = Some ("/uploads/" ++ path_basename h (staged_path h (o_now_paper o) g))).
Proof.
  intros Hv Hp Hs Hdb. unfold run.
  rewrite (post_submissions_staged h req o w f Hv Hp Hs), Hdb. simpl.
  rewrite nth_error_app2, Nat.sub_diag by lia. simpl.
  eexists. split; [reflexivity|]. simpl.
  repeat split; try reflexivity.
  - apply or_null_absent.
  - apply or_null_absent.
  - unfold or_null. destruct (truthy (videoLink req)); [auto | discriminate].
  - intros ->. reflexivity.
  - intros ->. reflexivity.
  - intros g -> Hg. simpl. unfold upload_url. rewrite (truthy_Some _ Hg). reflexivity.
Qed.

Lemma stored_row_fields_witness :
  exists row,
    nth_error (w_rows (snd (run (post_submissions sample_host two_part_req all_fine)
                              sample_world))) 3
    = Some row
    /\ id row = "7"
    /\ email (cols row) = "x@gmail.com"
    /\ video_link (cols row) = Some "https://example.org/v"
    /\ presentation_url (cols row) = "/uploads/1700000000000-slides.pdf"
    /\ paper_url (cols row) = Some "/uploads/1700000000001-slides.pdf"
    /\ logo_url (cols row) = None.
Proof.
  destruct (stored_row_fields sample_host two_part_req all_fine sample_world sample_file)
    as (row & Hn & Hid & _ & _ & Hem & _ & _ & _ & _ & Hpres & _ & Hlogo & Hpaper);
    try reflexivity.
  exists row. split; [exact Hn|]. split; [exact Hid|]. split; [exact Hem|].
  split; [|split; [exact Hpres|split; [|exact (Hlogo eq_refl)]]].
  - vm_compute in Hn. injection Hn as <-. reflexivity.
  - apply (Hpaper paper_file); [reflexivity | discriminate].
Defined.

(** X10: the one mail a persisted non-institutional submission triggers goes
    to the fixed moderator mailbox, whatever the submitter sent; its subject
    is [Approval Request: ] followed by the project title, and its body
    quotes the submitter's name, email, project title and description as
    sent, with the approval link for the new row. *)
Theorem approval_mail_content (h : Host) (req : SubmitReq) (o : Oracle) (w : World) :
  missing_required req = false ->
  endsWith (str (reqEmail req)) "@sfsu.edu" = false ->
  staging_succeeds req o w = true ->
  o_db o = DbOk ->
  exists m,
    sent_mails (w_log (snd (run (post_submissions h req o) w)))
    = (sent_mails (w_log w) ++ [m])%list
    /\ mail_to m = "necrlresearch@gmail.com"
    /\ mail_from m = or_default (env_EMAIL_USER h) "necrlresearch@gmail.com"
    /\ mail_subject m = "Approval Request: " ++ str (projectTitle req)
    /\ contains (mail_html m) (str (fullName req))
    /\ contains (mail_html m) (str (reqEmail req))
    /\ contains (mail_html m) (str (projectTitle req))
    /\ contains (mail_html m) (str (projectDescription req))
    /\ contains (mail_html m) (approval_link h (o_new_id o)).
Proof.
  intros Hv He Hs Hdb.
  destruct (missing_required_false req Hv) as (_ & _ & _ & _ & Hp).
  destruct (presentationFile req) as [f|] eqn:Hf; [clear Hp | congruence].
  fold institutional_suffix in He.
  exists (approval_mail h req (o_new_id o)).
  unfold run. rewrite (post_submissions_staged h req o w f Hv Hf Hs), Hdb, He. simpl.
  split.
  - rewrite !sent_mails_app, sent_mails_write_events.
    destruct (w_upload_dir w); simpl; now rewrite app_nil_r.
  - unfold approval_mail, mail_options.
    cbn [mail_to mail_from mail_subject mail_html]. unfold mail_body.
    split; [reflexivity|]. split; [reflexivity|]. split; [reflexivity|].
    repeat split; repeat first [apply contains_here | apply contains_skip].
Qed.

Lemma approval_mail_content_witness :
  exists m,
    sent_mails (w_log (snd (run (post_submissions sample_host gmail_req all_fine)
                              sample_world)))
    = (sent_mails (w_log sample_world) ++ [m])%list
    /\ mail_to m = "necrlresearch@gmail.com"
    /\ mail_from m = or_default (env_EMAIL_USER sample_host) "necrlresearch@gmail.com"
    /\ mail_subject m = "Approval Request: " ++ str (projectTitle gmail_req)
    /\ contains (mail_html m) (str (fullName gmail_req))
    /\ contains (mail_html m) (str (reqEmail gmail_req))
    /\ contains (mail_html m) (str (projectTitle gmail_req))
    /\ contains (mail_html m) (str (projectDescription gmail_req))
    /\ contains (mail_html m) (approval_link sample_host (o_new_id all_fine)).
Proof.
  apply (approval_mail_content sample_host gmail_req all_fine sample_world); reflexivity.
Defined.

(** X11: the file names are not collision-free: when the presentation and
    the paper carry the same original name and the clock reads the same
    millisecond for both, they are saved at one path, the paper written last
    replaces the presentation there, and the stored row points both URLs at
    that file. *)
Theorem same_name_same_millisecond_overwrites
    (h : Host) (req : SubmitReq) (o : Oracle) (w : World) (f g : File) :
  missing_required req = false ->
  presentationFile req = Some f ->
  paperFile req = Some g ->
  logoFile req = None ->
  originalname f = originalname g ->
  o_now_presentation o = o_now_paper o ->
  staged_path h (o_now_presentation o) f <> EmptyString ->
  staging_succeeds req o w = true ->
  o_db o = DbOk ->
  read_file (staged_path h (o_now_presentation o) f)
    (w_files (snd (run (post_submissions h req o) w)))
  = Some (buffer g)
  /\ exists row,
       nth_error (w_rows (snd (run (post_submissions h req o) w)))
         (List.length (w_rows w))
       = Some row
       /\ paper_url (cols row) = Some (presentation_url (cols row)).
Proof.
  intros Hv Hp Hg Hl Hname Hnow Hne Hs Hdb.
  assert (Hpath : staged_path h (o_now_paper o) g
                  = staged_path h (o_now_presentation o) f).
  { unfold staged_path, staged_name. now rewrite Hnow, Hname. }
  unfold run. rewrite (post_submissions_staged h req o w f Hv Hp Hs), Hdb. simpl.
  unfold staged_parts, staged_paths. rewrite Hp, Hg, Hl. simpl.
  rewrite Hpath, String.eqb_refl. split; [reflexivity|].
  rewrite nth_error_app2, Nat.sub_diag by lia. simpl.
  eexists. split; [reflexivity|]. simpl.
  unfold upload_url. rewrite (truthy_Some _ Hne). reflexivity.
Qed.

Lemma same_name_same_millisecond_overwrites_witness :
  read_file (staged_path sample_host 1700000000000 sample_file)
    (w_files (snd (run (post_submissions sample_host two_part_req same_millisecond)
                     sample_world)))
  = Some (buffer paper_file)
  /\ exists row,
       nth_error (w_rows (snd (run (post_submissions sample_host two_part_req
                                      same_millisecond) sample_world))) 3
       = Some row
       /\ paper_url (cols row) = Some (presentation_url (cols row)).
Proof.
  apply (same_name_same_millisecond_overwrites sample_host two_part_req same_millisecond
           sample_world sample_file paper_file);
    first [reflexivity | discriminate].
Defined.

(** ** Listing and the calendar *)

Lemma updates_app (l1 l2 : list Event) :
  updates (l1 ++ l2) = (updates l1 ++ updates l2)%list.
Proof. apply flat_map_app. Qed.

(** X12: the listing route only reads: for every parameter and every answer
    of the store, the table, the files and the upload directory are as
    before and no insert, update or mail is issued; when the store fails on
    a non-empty parameter the answer is 500 with the fetch-failed message. *)
Theorem listing_is_read_only (statusParam : option string) (o : Oracle) (w : World) :
  w_rows (snd (run (get_submissions statusParam o) w)) = w_rows w
  /\ w_files (snd (run (get_submissions statusParam o) w)) = w_files w
  /\ w_upload_dir (snd (run (get_submissions statusParam o) w)) = w_upload_dir w
  /\ inserted (w_log (snd (run (get_submissions statusParam o) w))) = inserted (w_log w)
  /\ updates (w_log (snd (run (get_submissions statusParam o) w))) = updates (w_log w)
  /\ sent_mails (w_log (snd (run (get_submissions statusParam o) w)))
     = sent_mails (w_log w)
  /\ (truthy statusParam = true -> o_db o <> DbOk ->
      fst (run (get_submissions statusParam o) w)
      = Some (json 500 false msg_fetch_failed)).
Proof.
  unfold run. destruct (truthy statusParam) eqn:Ht.
  - destruct statusParam as [s|]; [|discriminate].
    assert (Hs : s <> EmptyString) by (intros ->; discriminate).
    rewrite (get_submissions_run s o w Hs). simpl.
    rewrite inserted_app, updates_app, sent_mails_app. simpl. rewrite !app_nil_r.
    repeat split. intros _ Hdb. destruct (o_db o); congruence.
  - rewrite (get_submissions_missing statusParam o w Ht). simpl.
    repeat split. discriminate.
Qed.

Lemma listing_is_read_only_witness :
  w_rows (snd (run (get_submissions (Some "pending") db_down) sample_world))
  = w_rows sample_world
  /\ fst (run (get_submissions (Some "pending") db_down) sample_world)
     = Some (json 500 false msg_fetch_failed).
Proof.
  split.
  - apply (listing_is_read_only (Some "pending") db_down sample_world).
  - apply (listing_is_read_only (Some "pending") db_down sample_world);
      first [reflexivity | discriminate].
Defined.

Lemma sorted_calendar (l : list Row) :
  newest_first l ->
  StronglySorted (fun a b => (cal_created_at b <= cal_created_at a)%Z)
    (map calendar_entry l).
Proof.
  unfold newest_first. induction 1 as [|r l Hs IH Hall]; simpl; constructor.
  - exact IH.
  - apply Forall_map. exact Hall.
Qed.

(** X13: the calendar is the approved listing seen through four columns: when
    the store answers, it is answered 200 with the identifier, name, title
    and timestamp of exactly the rows whose status is approved, in the order
    the listing route gives them, newest first; when the store fails it is
    answered 500; either way the table is left as it was. *)
Theorem calendar_lists_approved (o : Oracle) (w : World) :
  w_rows (snd (run (get_calendar o) w)) = w_rows w
  /\ (o_db o <> DbOk ->
      fst (run (get_calendar o) w) = Some (json 500 false msg_calendar_failed))
  /\ (o_db o = DbOk ->
      exists rows,
        fst (run (get_submissions (Some "approved") o) w)
        = Some {| code := 200; body := Rows rows |}
        /\ fst (run (get_calendar o) w)
           = Some {| code := 200; body := Calendar (map calendar_entry rows) |}
        /\ (forall r, In r rows <-> In r (w_rows w) /\ row_status r = "approved")
        /\ StronglySorted (fun a b => (cal_created_at b <= cal_created_at a)%Z)
             (map calendar_entry rows)).
Proof.
  unfold run. rewrite get_calendar_run.
  rewrite (get_submissions_run "approved" o w) by discriminate. simpl.
  split; [reflexivity|]. split.
  - intros H. destruct (o_db o); congruence.
  - intros ->. eexists. split; [reflexivity|]. split; [reflexivity|].
    split; [apply order_desc_filter_In|].
    apply sorted_calendar, order_desc_sorted.
Qed.

Lemma calendar_lists_approved_witness :
  fst (run (get_calendar db_down) sample_world)
  = Some (json 500 false msg_calendar_failed)
  /\ exists rows,
       fst (run (get_submissions (Some "approved") all_fine) sample_world)
       = Some {| code := 200; body := Rows rows |}
       /\ fst (run (get_calendar all_fine) sample_world)
          = Some {| code := 200; body := Calendar (map calendar_entry rows) |}
       /\ (forall r, In r rows <-> In r (w_rows sample_world) /\ row_status r = "approved")
       /\ StronglySorted (fun a b => (cal_created_at b <= cal_created_at a)%Z)
            (map calendar_entry rows).
Proof.
  split.
  - apply (calendar_lists_approved db_down sample_world). discriminate.
  - apply (calendar_lists_approved all_fine sample_world). reflexivity.
Defined.

(** ** Approval: edges and composition *)

(** X14: an approval request without an identifier, or with an empty one, is
    answered 400 and nothing happens: the store is not called and the world
    is exactly as before. *)
Theorem approve_missing_id (studentId : option string) (o : Oracle) (w : World) :
  absent studentId ->
  run (post_approve studentId o) w = (Some (json 400 false msg_id_required), w).
Proof.
  intros H. apply absent_truthy in H. apply run_eq. now apply post_approve_missing.
Qed.

Lemma approve_missing_id_witness :
  run (post_approve (Some EmptyString) all_fine) sample_world
  = (Some (json 400 false msg_id_required), sample_world).
Proof.
  apply (approve_missing_id (Some EmptyString) all_fine sample_world).
  right. reflexivity.
Defined.

(** X15: when the store fails on the update (an error result or a rejected
    call), the approval is answered 500 and every row keeps its prior status;
    the update was attempted once, for that identifier and the status
    approved. *)
Theorem approve_store_failure (sid : string) (o : Oracle) (w : World) :
  sid <> EmptyString ->
  o_db o <> DbOk ->
  fst (run (post_approve (Some sid) o) w) = Some (json 500 false msg_approve_failed)
  /\ w_rows (snd (run (post_approve (Some sid) o) w)) = w_rows w
  /\ updates (w_log (snd (run (post_approve (Some sid) o) w)))
     = (updates (w_log w) ++ [(sid, "approved")])%list.
Proof.
  intros Hs Hdb. unfold run. rewrite (post_approve_run sid o w Hs).
  destruct (o_db o); [congruence| |]; simpl; rewrite updates_app; auto.
Qed.

Lemma approve_store_failure_witness :
  fst (run (post_approve (Some "2") db_down) sample_world)
  = Some (json 500 false msg_approve_failed)
  /\ w_rows (snd (run (post_approve (Some "2") db_down) sample_world))
     = w_rows sample_world
  /\ updates (w_log (snd (run (post_approve (Some "2") db_down) sample_world)))
     = (updates (w_log sample_world) ++ [("2", "approved")])%list.
Proof.
  apply (approve_store_failure "2" db_down sample_world); discriminate.
Defined.

Lemma update_where_id_comm (a b s : string) (rows : list Row) :
  update_where_id a s (update_where_id b s rows)
  = update_where_id b s (update_where_id a s rows).
Proof.
  unfold update_where_id. rewrite !map_map. apply map_ext. intros r.
  destruct (String.eqb (id r) a) eqn:Ea, (String.eqb (id r) b) eqn:Eb;
    simpl; rewrite ?Ea, ?Eb; reflexivity.
Qed.

(** X16: approvals commute: approving two identifiers in either order, with
    the store answering, leaves the same table. *)
Theorem approve_commutes (a b : string) (o1 o2 o3 o4 : Oracle) (w : World) :
  a <> EmptyString -> b <> EmptyString ->
  o_db o1 = DbOk -> o_db o2 = DbOk -> o_db o3 = DbOk -> o_db o4 = DbOk ->
  w_rows (snd (run (post_approve (Some b) o2) (snd (run (post_approve (Some a) o1) w))))
  = w_rows (snd (run (post_approve (Some a) o4) (snd (run (post_approve (Some b) o3) w)))).
Proof.
  intros Ha Hb H1 H2 H3 H4. unfold run.
  rewrite (post_approve_run a o1 w Ha), H1. simpl.
  rewrite (post_approve_run b o2 _ Hb), H2. simpl.
  rewrite (post_approve_run b o3 w Hb), H3. simpl.
  rewrite (post_approve_run a o4 _ Ha), H4. simpl.
  apply update_where_id_comm.
Qed.

Lemma approve_commutes_witness :
  w_rows (snd (run (post_approve (Some "1") all_fine)
                 (snd (run (post_approve (Some "2") all_fine) sample_world))))
  = w_rows (snd (run (post_approve (Some "2") all_fine)
                   (snd (run (post_approve (Some "1") all_fine) sample_world)))).
Proof.
  apply (approve_commutes "2" "1" all_fine all_fine all_fine all_fine sample_world);
    first [reflexivity | discriminate].
Defined.

(** X17: an approved submission becomes visible: after a successful approval
    of the identifier of a stored row, the approved listing holds that row
    with its status set to approved, the calendar holds its entry, and the
    pending listing holds no row with that identifier. *)
Theorem approve_then_listed
    (sid : string) (o1 o2 : Oracle) (w : World) (k : nat) (r : Row) :
  sid <> EmptyString ->
  nth_error (w_rows w) k = Some r ->
  id r = sid ->
  o_db o1 = DbOk ->
  o_db o2 = DbOk ->
  exists approved pending,
    fst (run (get_submissions (Some "approved") o2)
           (snd (run (post_approve (Some sid) o1) w)))
    = Some {| code := 200; body := Rows approved |}
    /\ In (set_row_status "approved" r) approved
    /\ fst (run (get_calendar o2) (snd (run (post_approve (Some sid) o1) w)))
       = Some {| code := 200; body := Calendar (map calendar_entry approved) |}
    /\ In (calendar_entry r) (map calendar_entry approved)
    /\ fst (run (get_submissions (Some "pending") o2)
              (snd (run (post_approve (Some sid) o1) w)))
       = Some {| code := 200; body := Rows pending |}
    /\ (forall r', In r' pending -> id r' <> sid).
Proof.
  intros Hs Hk Hid H1 H2. unfold run.
  rewrite (post_approve_run sid o1 w Hs), H1. simpl.
  rewrite get_calendar_run, !get_submissions_run by discriminate. rewrite H2. simpl.
  eexists. eexists. split; [reflexivity|].
  assert (Hin : In (set_row_status "approved" r)
                  (order_desc (filter (status_is "approved")
                                 (update_where_id sid "approved" (w_rows w))))).
  { apply order_desc_filter_In. split; [|reflexivity].
    apply nth_error_In with k. rewrite (update_where_id_nth _ _ _ _ _ Hk).
    apply String.eqb_eq in Hid. now rewrite Hid. }
  split; [exact Hin|]. split; [reflexivity|].
  split; [apply (in_map calendar_entry) in Hin; exact Hin|].
  split; [reflexivity|].
  intros r' Hr' E. apply order_desc_filter_In in Hr'. destruct Hr' as [Hr' Hst].
  unfold update_where_id in Hr'. apply in_map_iff in Hr'.
  destruct Hr' as (r0 & <- & _).
  destruct (String.eqb (id r0) sid) eqn:E0.
  - discriminate.
  - apply String.eqb_neq in E0. contradiction.
Qed.

Lemma approve_then_listed_witness :
  exists approved pending,
    fst (run (get_submissions (Some "approved") all_fine)
           (snd (run (post_approve (Some "2") all_fine) sample_world)))
    = Some {| code := 200; body := Rows approved |}
    /\ In (set_row_status "approved" (sample_row "2" 20 "b@gmail.com" "pending")) approved
    /\ fst (run (get_calendar all_fine)
              (snd (run (post_approve (Some "2") all_fine) sample_world)))
       = Some {| code := 200; body := Calendar (map calendar_entry approved) |}
    /\ In (calendar_entry (sample_row "2" 20 "b@gmail.com" "pending"))
         (map calendar_entry approved)
    /\ fst (run (get_submissions (Some "pending") all_fine)
              (snd (run (post_approve (Some "2") all_fine) sample_world)))
       = Some {| code := 200; body := Rows pending |}
    /\ (forall r', In r' pending -> id r' <> "2").
Proof.
  apply (approve_then_listed "2" all_fine all_fine sample_world 1
           (sample_row "2" 20 "b@gmail.com" "pending"));
    first [reflexivity | discriminate].
Defined.

(** ** From intake to the public listing *)

Lemma filter_status_snoc (s : string) (rows : list Row) (row : Row) :
  filter (status_is s) (rows ++ [row])
  = (filter (status_is s) rows ++ (if status_is s row then [row] else []))%list.
Proof. rewrite filter_app. reflexivity. Qed.

Lemma persisted_rows (h : Host) (req : SubmitReq) (o : Oracle) (w : World) :
  missing_required req = false ->
  staging_succeeds req o w = true ->
  o_db o = DbOk ->
  exists c,
    w_rows (snd (post_submissions h req o w))
    = (w_rows w ++ [{| id := o_new_id o; created_at := o_created_at o; cols := c |}])%list
    /\ email c = str (reqEmail req)
    /\ full_name c = str (fullName req)
    /\ project_title c = str (projectTitle req)
    /\ status c = classify (str (reqEmail req)).
Proof.
  intros Hv Hs Hdb.
  destruct (post_submissions_persisted h req o w Hv Hs Hdb)
    as (paths & delta & _ & _ & Hrows & _).
  destruct (new_columns_fields h req paths) as (Hem & Hst & Hfn & Hpt & _).
  exists (new_columns h req paths). auto.
Qed.

(** X18: a submission from a non-institutional address is held back: once
    persisted, its row is in the pending listing, and the approved listing
    and the calendar answer exactly what they answered before the intake. *)
Theorem pending_intake_stays_off_calendar
    (h : Host) (req : SubmitReq) (o o2 : Oracle) (w : World) :
  missing_required req = false ->
  endsWith (str (reqEmail req)) "@sfsu.edu" = false ->
  staging_succeeds req o w = true ->
  o_db o = DbOk ->
  o_db o2 = DbOk ->
  (exists row pending,
     nth_error (w_rows (snd (run (post_submissions h req o) w))) (List.length (w_rows w))
     = Some row
     /\ id row = o_new_id o
     /\ fst (run (get_submissions (Some "pending") o2)
               (snd (run (post_submissions h req o) w)))
        = Some {| code := 200; body := Rows pending |}
     /\ In row pending)
  /\ fst (run (get_calendar o2) (snd (run (post_submissions h req o) w)))
     = fst (run (get_calendar o2) w)
  /\ fst (run (get_submissions (Some "approved") o2)
            (snd (run (post_submissions h req o) w)))
     = fst (run (get_submissions (Some "approved") o2) w).
Proof.
  intros Hv He Hs Hdb Hdb2. fold institutional_suffix in He.
  destruct (persisted_rows h req o w Hv Hs Hdb) as (c & Hrows & Hem & _ & _ & Hst).
  unfold classify in Hst. rewrite He in Hst.
  set (row := {| id := o_new_id o; created_at := o_created_at o; cols := c |}) in *.
  assert (Hno : status_is "approved" row = false).
  { unfold status_is, row_status. simpl. now rewrite Hst. }
  assert (Hyes : status_is "pending" row = true).
  { unfold status_is, row_status. simpl. now rewrite Hst. }
  rewrite run_snd. unfold run.
  rewrite !get_calendar_run, !get_submissions_run by discriminate.
  rewrite Hdb2, Hrows. cbn -[status_is order_desc filter].
  rewrite !filter_status_snoc, Hno, Hyes, !app_nil_r.
  split; [|split; reflexivity].
  eexists. eexists. split.
  - rewrite nth_error_app2, Nat.sub_diag by lia. reflexivity.
  - split; [reflexivity|]. split; [reflexivity|].
    apply (Permutation_in _ (Permutation_sym (order_desc_perm _))).
    apply in_or_app. right. now left.
Qed.

Lemma pending_intake_stays_off_calendar_witness :
  (exists row pending,
     nth_error (w_rows (snd (run (post_submissions sample_host gmail_req all_fine)
                               sample_world))) 3
     = Some row
     /\ id row = "7"
     /\ fst (run (get_submissions (Some "pending") all_fine)
               (snd (run (post_submissions sample_host gmail_req all_fine) sample_world)))
        = Some {| code := 200; body := Rows pending |}
     /\ In row pending)
  /\ fst (run (get_calendar all_fine)
            (snd (run (post_submissions sample_host gmail_req all_fine) sample_world)))
     = fst (run (get_calendar all_fine) sample_world)
  /\ fst (run (get_submissions (Some "approved") all_fine)
            (snd (run (post_submissions sample_host gmail_req all_fine) sample_world)))
     = fst (run (get_submissions (Some "approved") all_fine) sample_world).
Proof.
  apply (pending_intake_stays_off_calendar sample_host gmail_req all_fine all_fine
           sample_world); reflexivity.
Defined.

(** X19: a submission from an institutional address is public at once: once
    persisted, its row is in the approved listing and its entry, with the
    submitter's name and project title, is on the calendar, with no approval
    step. *)
Theorem institutional_intake_on_calendar
    (h : Host) (req : SubmitReq) (o o2 : Oracle) (w : World) :
  missing_required req = false ->
  endsWith (str (reqEmail req)) "@sfsu.edu" = true ->
  staging_succeeds req o w = true ->
  o_db o = DbOk ->
  o_db o2 = DbOk ->
  exists row approved,
    nth_error (w_rows (snd (run (post_submissions h req o) w))) (List.length (w_rows w))
    = Some row
    /\ fst (run (get_submissions (Some "approved") o2)
              (snd (run (post_submissions h req o) w)))
       = Some {| code := 200; body := Rows approved |}
    /\ In row approved
    /\ fst (run (get_calendar o2) (snd (run (post_submissions h req o) w)))
       = Some {| code := 200; body := Calendar (map calendar_entry approved) |}
    /\ In {| cal_id := o_new_id o;
             cal_full_name := str (fullName req);
             cal_project_title := str (projectTitle req);
             cal_created_at := o_created_at o |}
         (map calendar_entry approved).
Proof.
  intros Hv He Hs Hdb Hdb2. fold institutional_suffix in He.
  destruct (persisted_rows h req o w Hv Hs Hdb) as (c & Hrows & Hem & Hfn & Hpt & Hst).
  unfold classify in Hst. rewrite He in Hst.
  rewrite run_snd. unfold run.
  rewrite get_calendar_run, !get_submissions_run by discriminate.
  rewrite Hdb2, Hrows. simpl.
  assert (Hin : In {| id := o_new_id o; created_at := o_created_at o; cols := c |}
                  (order_desc
                     (filter (status_is "approved")
                        (w_rows w
                         ++ [{| id := o_new_id o; created_at := o_created_at o;
                                cols := c |}])))).
  { apply order_desc_filter_In. split; [apply in_or_app; right; now left | exact Hst]. }
  eexists. eexists. split.
  - rewrite nth_error_app2, Nat.sub_diag by lia. reflexivity.
  - split; [reflexivity|]. split; [exact Hin|]. split; [reflexivity|].
    apply (in_map calendar_entry) in Hin. unfold calendar_entry at 1 in Hin.
    simpl in Hin. rewrite Hfn, Hpt in Hin. exact Hin.
Qed.

Lemma institutional_intake_on_calendar_witness :
  exists row approved,
    nth_error (w_rows (snd (run (post_submissions sample_host sfsu_req all_fine)
                              sample_world))) 3
    = Some row
    /\ fst (run (get_submissions (Some "approved") all_fine)
              (snd (run (post_submissions sample_host sfsu_req all_fine) sample_world)))
       = Some {| code := 200; body := Rows approved |}
    /\ In row approved
    /\ fst (run (get_calendar all_fine)
              (snd (run (post_submissions sample_host sfsu_req all_fine) sample_world)))
       = Some {| code := 200; body := Calendar (map calendar_entry approved) |}
    /\ In {| cal_id := "7";
             cal_full_name := "Ada";
             cal_project_title := "Thesis";
             cal_created_at := 40 |}
         (map calendar_entry approved).
Proof.
  apply (institutional_intake_on_calendar sample_host sfsu_req all_fine all_fine
           sample_world); reflexivity.
Defined.

(** X20: the moderation round trip: a non-institutional submission is
    persisted as pending, and approving the identifier the table gave it (the
    one its approval link carries) turns that very row into an approved one,
    with its email unchanged, and puts it on the calendar. *)
Theorem moderation_round_trip
    (h : Host) (req : SubmitReq) (o o2 o3 : Oracle) (w : World) :
  missing_required req = false ->
  endsWith (str (reqEmail req)) "@sfsu.edu" = false ->
  staging_succeeds req o w = true ->
  o_db o = DbOk ->
  o_new_id o <> EmptyString ->
  o_db o2 = DbOk ->
  o_db o3 = DbOk ->
  exists pendingRow,
    nth_error (w_rows (snd (run (post_submissions h req o) w))) (List.length (w_rows w))
    = Some pendingRow
    /\ row_status pendingRow = "pending"
    /\ contains (approval_link h (id pendingRow)) (o_new_id o)
    /\ nth_error
         (w_rows (snd (run (post_approve (Some (o_new_id o)) o2)
                         (snd (run (post_submissions h req o) w)))))
         (List.length (w_rows w))
       = Some (set_row_status "approved" pendingRow)
    /\ email (cols pendingRow) = str (reqEmail req)
    /\ exists entries,
         fst (run (get_calendar o3)
                (snd (run (post_approve (Some (o_new_id o)) o2)
                        (snd (run (post_submissions h req o) w)))))
         = Some {| code := 200; body := Calendar entries |}
         /\ In (calendar_entry pendingRow) entries.
Proof.
  intros Hv He Hs Hdb Hid Hdb2 Hdb3. fold institutional_suffix in He.
  destruct (persisted_rows h req o w Hv Hs Hdb) as (c & Hrows & Hem & _ & _ & Hst).
  unfold classify in Hst. rewrite He in Hst.
  rewrite !run_snd.
  assert (Hk : nth_error (w_rows (snd (post_submissions h req o w)))
                 (List.length (w_rows w))
               = Some {| id := o_new_id o; created_at := o_created_at o; cols := c |}).
  { rewrite Hrows, nth_error_app2, Nat.sub_diag by lia. reflexivity. }
  assert (Hup : nth_error
                  (update_where_id (o_new_id o) "approved"
                     (w_rows (snd (post_submissions h req o w))))
                  (List.length (w_rows w))
                = Some (set_row_status "approved"
                          {| id := o_new_id o; created_at := o_created_at o;
                             cols := c |})).
  { rewrite (update_where_id_nth _ _ _ _ _ Hk). simpl. now rewrite String.eqb_refl. }
  eexists. split; [exact Hk|]. split; [exact Hst|]. split.
  { unfold approval_link. cbn [id]. apply contains_skip, contains_skip.
    exists EmptyString, EmptyString. simpl.
    clear. induction (o_new_id o) as [|ch s IH]; simpl; [reflexivity | now f_equal]. }
  unfold run. rewrite (post_approve_run _ o2 _ Hid), Hdb2. simpl.
  split; [exact Hup|]. split; [exact Hem|].
  rewrite get_calendar_run, Hdb3. simpl.
  eexists. split; [reflexivity|].
  apply (in_map calendar_entry
           (order_desc (filter (status_is "approved")
                          (update_where_id (o_new_id o) "approved"
                             (w_rows (snd (post_submissions h req o w))))))
           (set_row_status "approved"
              {| id := o_new_id o; created_at := o_created_at o; cols := c |})).
  apply order_desc_filter_In. split; [|reflexivity].
  eapply nth_error_In. exact Hup.
Qed.

Lemma moderation_round_trip_witness :
  exists pendingRow,
    nth_error (w_rows (snd (run (post_submissions sample_host gmail_req all_fine)
                              sample_world))) 3
    = Some pendingRow
    /\ row_status pendingRow = "pending"
    /\ contains (approval_link sample_host (id pendingRow)) "7"
    /\ nth_error
         (w_rows (snd (run (post_approve (Some "7") all_fine)
                         (snd (run (post_submissions sample_host gmail_req all_fine)
                                 sample_world))))) 3
       = Some (set_row_status "approved" pendingRow)
    /\ email (cols pendingRow) = "x@gmail.com"
    /\ exists entries,
         fst (run (get_calendar all_fine)
                (snd (run (post_approve (Some "7") all_fine)
                        (snd (run (post_submissions sample_host gmail_req all_fine)
                                sample_world)))))
         = Some {| code := 200; body := Calendar entries |}
         /\ In (calendar_entry pendingRow) entries.
Proof.
  apply (moderation_round_trip sample_host gmail_req all_fine all_fine all_fine
           sample_world); first [reflexivity | discriminate].
Defined.

(** ** The approval page *)

Lemma string_app_assoc (a b c : string) : (a ++ b) ++ c = a ++ b ++ c.
Proof. induction a as [|x a IH]; simpl; [reflexivity | now rewrite IH]. Qed.

Lemma contains_three (a b c rest : string) :
  contains (a ++ b ++ c ++ rest) (a ++ b ++ c).
Proof.
  exists EmptyString, rest. simpl. now rewrite !string_app_assoc.
Qed.

(** X21: the page route redirects to [/?error=missing-id] when the identifier
    is missing or empty; otherwise it sends the confirmation page, whose
    script posts to [/api/approve] a JSON body in which the identifier from
    the query is spliced as it came, between single quotes. *)
Theorem approve_page_posts_id (studentId : option string) :
  (absent studentId -> get_approve studentId = Redirect "/?error=missing-id")
  /\ (forall s, studentId = Some s -> s <> EmptyString ->
      exists html,
        get_approve studentId = Page html
        /\ contains html "            const response = await fetch('/api/approve', {"
        /\ contains html "              method: 'POST',"
        /\ contains html
             ("              body: JSON.stringify({ studentId: '" ++ s ++ "' })")).
Proof.
  split.
  - intros H. apply absent_truthy in H. unfold get_approve. now rewrite H.
  - intros s -> Hs. unfold get_approve. rewrite (truthy_Some s Hs). simpl negb.
    eexists. split; [reflexivity|]. unfold approve_page_html. cbn [str].
    repeat split;
      repeat first [apply contains_three | apply contains_here | apply contains_skip].
Qed.

Lemma approve_page_posts_id_witness :
  get_approve None = Redirect "/?error=missing-id"
  /\ exists html,
       get_approve (Some "7") = Page html
       /\ contains html "            const response = await fetch('/api/approve', {"
       /\ contains html "              method: 'POST',"
       /\ contains html
            ("              body: JSON.stringify({ studentId: '" ++ "7" ++ "' })").
Proof.
  split.
  - apply (proj1 (approve_page_posts_id None)). left. reflexivity.
  - apply (proj2 (approve_page_posts_id (Some "7")) "7");
      first [reflexivity | discriminate].
Defined.

(** ** Every route answers *)

Lemma post_submissions_codes (h : Host) (req : SubmitReq) (o : Oracle) (w : World) :
  missing_required req = false ->
  exists resp,
    fst (post_submissions h req o w) = Returned resp
    /\ (resp = json 200 true msg_auto_approved
        \/ resp = json 200 true msg_pending
        \/ resp = json 500 false msg_submit_failed).
Proof.
  intros Hv. unfold post_submissions. rewrite Hv. unfold try_catch, bind.
  destruct (save_files h req o w) as [[paths|] w1]; simpl.
  - unfold_effects.
    destruct (o_db o); simpl;
      [destruct (endsWith (str (reqEmail req)) institutional_suffix); simpl;
       [|destruct (o_mail_ok o); simpl]| |];
      eexists; split; try reflexivity; auto.
  - unfold ret. simpl. eexists. split; [reflexivity | auto].
Qed.

Ltac answer_codes :=
  eexists; split; [reflexivity|]; simpl; split; [auto|]; split;
  [ intros Hcode; first [congruence | eexists; reflexivity]
  | intros Hcode; first [reflexivity | discriminate Hcode] ].

(** X22: no request makes a handler fail without an answer: every JSON route,
    for every request and every behaviour of the file system, the store and
    the mail transport, answers 200, 400 or 500; an answer other than 200
    carries [success: false] with a message, and a 400 means that nothing at
    all was done. *)
Theorem every_request_answered (h : Host) (rq : Request) (o : Oracle) (w : World) :
  exists resp,
    fst (run (handle h rq o) w) = Some resp
    /\ (code resp = 200 \/ code resp = 400 \/ code resp = 500)%Z
    /\ (code resp <> 200%Z -> exists msg, body resp = Message false msg)
    /\ (code resp = 400%Z -> snd (run (handle h rq o) w) = w).
Proof.
  destruct rq as [req|sp| |sp]; simpl handle.
  - destruct (missing_required req) eqn:Hv.
    + unfold run. rewrite (post_submissions_missing h req o w Hv). simpl. answer_codes.
    + destruct (post_submissions_codes h req o w Hv) as (resp & Hr & Hc).
      unfold run. destruct (post_submissions h req o w) as [out w1]. simpl in Hr.
      subst out. destruct Hc as [-> | [-> | ->]]; simpl; answer_codes.
  - unfold run. destruct (truthy sp) eqn:Ht.
    + destruct sp as [s|]; [|discriminate].
      assert (Hs : s <> EmptyString) by (intros ->; discriminate).
      rewrite (get_submissions_run s o w Hs). destruct (o_db o); simpl; answer_codes.
    + rewrite (get_submissions_missing sp o w Ht). simpl. answer_codes.
  - unfold run. rewrite get_calendar_run. destruct (o_db o); simpl; answer_codes.
  - unfold run. destruct (truthy sp) eqn:Ht.
    + destruct sp as [s|]; [|discriminate].
      assert (Hs : s <> EmptyString) by (intros ->; discriminate).
      rewrite (post_approve_run s o w Hs). destruct (o_db o); simpl; answer_codes.
    + rewrite (post_approve_missing sp o w Ht). simpl. answer_codes.
Qed.

(** ** When a request is refused, and in which order things happen *)

(** X23: a 400 is answered only for missing input: the intake handler answers
    400 exactly when one of the four text fields or the presentation file is
    missing, and the approval handler exactly when the identifier is missing
    or empty; any non-empty text passes, whatever it contains. *)
Theorem bad_request_iff_missing_input
    (h : Host) (req : SubmitReq) (studentId : option string) (o : Oracle) (w : World) :
  (forall resp,
     fst (run (post_submissions h req o) w) = Some resp ->
     (code resp = 400%Z <->
      absent (fullName req) \/ absent (reqEmail req) \/ absent (projectTitle req)
      \/ absent (projectDescription req) \/ presentationFile req = None))
  /\ (forall resp,
        fst (run (post_approve studentId o) w) = Some resp ->
        (code resp = 400%Z <-> absent studentId)).
Proof.
  split; intros resp.
  - rewrite missing_required_true. destruct (missing_required req) eqn:Hv.
    + unfold run. rewrite (post_submissions_missing h req o w Hv). simpl.
      intros [= <-]. simpl. tauto.
    + destruct (post_submissions_codes h req o w Hv) as (r & Hr & Hc).
      rewrite (run_fst _ _ _ Hr). intros [= <-].
      destruct Hc as [-> | [-> | ->]]; simpl; split; discriminate.
  - rewrite absent_truthy. unfold run. destruct (truthy studentId) eqn:Ht.
    + destruct studentId as [s|]; [|discriminate].
      assert (Hs : s <> EmptyString) by (intros ->; discriminate).
      rewrite (post_approve_run s o w Hs).
      destruct (o_db o); simpl; intros [= <-]; simpl; split; discriminate.
    + rewrite (post_approve_missing studentId o w Ht). simpl.
      intros [= <-]. simpl. tauto.
Qed.

Lemma bad_request_iff_missing_input_witness :
  (code (json 400 false msg_missing) = 400%Z <->
   absent (fullName no_file_req) \/ absent (reqEmail no_file_req)
   \/ absent (projectTitle no_file_req) \/ absent (projectDescription no_file_req)
   \/ presentationFile no_file_req = None)
  /\ (code (json 200 true msg_approved) = 400%Z <-> absent (Some "2")).
Proof.
  split.
  - apply (proj1 (bad_request_iff_missing_input sample_host no_file_req (Some "2")
                    all_fine sample_world)). reflexivity.
  - apply (proj2 (bad_request_iff_missing_input sample_host no_file_req (Some "2")
                    all_fine sample_world)). reflexivity.
Defined.

(** X24: the side effects of an intake come in a fixed order: first the
    directory and the file writes, then at most one insert, then at most one
    mail; nothing is written after the insert, and a mail is never sent
    unless the insert was made just before it. *)
Theorem side_effects_in_order (h : Host) (req : SubmitReq) (o : Oracle) (w : World) :
  exists files_first tail,
    w_log (snd (run (post_submissions h req o) w))
    = (w_log w ++ files_first ++ tail)%list
    /\ inserted files_first = []
    /\ sent_mails files_first = []
    /\ (tail = []
        \/ (exists c, tail = [EvInsert c])
        \/ (exists c m, tail = [EvInsert c; EvSendMail m])).
Proof.
  rewrite run_snd. destruct (missing_required req) eqn:Hv.
  { rewrite (post_submissions_missing h req o w Hv). simpl.
    exists [], []. rewrite app_nil_r. auto. }
  destruct (save_files_frame h req o w) as (delta & Hlog & Hi & Hm & _ & _).
  exists delta.
  unfold post_submissions. rewrite Hv. unfold try_catch, bind.
  destruct (save_files h req o w) as [[paths|] w1]; simpl in Hlog.
  - unfold_effects.
    destruct (o_db o); simpl;
      [destruct (endsWith (str (reqEmail req)) institutional_suffix); simpl;
       [|destruct (o_mail_ok o); simpl]| |];
      rewrite Hlog, <- ?app_assoc; simpl;
      eexists; (split; [reflexivity|]); (split; [exact Hi|]); (split; [exact Hm|]);
      eauto.
  - unfold ret. simpl. exists []. rewrite Hlog, app_nil_r. auto.
Qed.
